(** * Bozorli backend: order lifecycle, stock ledger and payment webhooks

    A shallow embedding of the order-coordination core of the backend:
    - the [Order] model with its transition table (models/Order.js),
    - the [Product] model with its reservation helpers (models/Product.js),
    - the order routes [POST /api/v1/orders] and
      [POST /api/v1/orders/:orderId/cancel] (routes/orders.js),
    - the payment webhook [POST /api/v1/payments/webhook/:provider]
      (routes/payments.js),
    - the route that rates an order, [POST /api/v1/orders/:orderId/rate]
      (routes/orders.js),
    - the routes that create, read and refund a payment,
      [POST /api/v1/payments/create], [GET /api/v1/payments/:paymentId/status]
      and [POST /api/v1/payments/refund] (routes/payments.js).

    Conventions of the embedding.
    - ENUM columns are inductive types; ids and free text are strings;
      INTEGER columns and amounts are [Z]; a DATE column is [option Z]
      (null, or a clock reading).
    - [new Date()], [uuidv4()] and the authenticated caller are inputs of
      the handler that uses them.
    - A row holds the attributes its model declares, under the names of
      the schema ([sequelize.define]).  A name that the schema does not
      declare is not a column, wherever the code uses it:
      as a property of a loaded instance it is [undefined] until a method
      assigns it, and [save()] does not write it;
      as a key of a [where] clause it names an unknown column and the
      query throws;
      as a key of the values of [create] it is dropped, and the column
      it was meant for takes its default or fails its [allowNull: false];
      an [undefined] value in a [where] clause makes the query throw.
    - A table is a finite map from primary key to row.  The ORM calls
      ([findByPk], [findOne], [findAll], [create], [update], [save]) act on
      these maps; a handler is a function from the database to a response
      and the database it leaves behind, one request run to completion.
    - A thrown exception is a value of the result type; the [try]/[catch]
      of a route turns it into the 500 response, keeping what had been
      written before the throw. *)

From Stdlib Require Import ZArith.
From stdpp Require Import base option strings list gmap fin_maps pretty.

Local Open Scope Z_scope.

(** ** JavaScript values used by the models *)

Module Js.

(** The value of a numeric property that may never have been assigned:
    [undefined], [NaN], or an integer-valued number. *)
Inductive number : Type :=
| Undefined
| NaN
| Num (z : Z).

#[global] Instance number_eq_dec : EqDecision number.
Proof. solve_decision. Defined.

(** [x + amount] for a number [amount]; [undefined + n] is [NaN]. *)
Definition add (x : number) (amount : Z) : number :=
  match x with
  | Num r => Num (r + amount)
  | Undefined | NaN => NaN
  end.

(** [x - amount]. *)
Definition sub (x : number) (amount : Z) : number :=
  match x with
  | Num r => Num (r - amount)
  | Undefined | NaN => NaN
  end.

(** [Math.max(0, x)]; [NaN] is contagious. *)
Definition max0 (x : number) : number :=
  match x with
  | Num r => Num (Z.max 0 r)
  | Undefined | NaN => NaN
  end.

(** [Array.prototype.includes]. *)
Definition includes {A} `{EqDecision A} (l : list A) (x : A) : bool :=
  existsb (λ y, bool_decide (y = x)) l.

(** [a || b] on numbers: [a] unless it is [undefined] or [0]. *)
Definition or_number (a : option Z) (b : Z) : Z :=
  match a with
  | Some z => if z =? 0 then b else z
  | None => b
  end.

(** [a || b] on strings: [a] unless it is [undefined] or empty. *)
Definition or_string (a : option string) (b : string) : string :=
  match a with
  | Some s => if String.eqb s "" then b else s
  | None => b
  end.

(** JSON request bodies. *)
#[warnings="-register-all"]
Inductive json : Type :=
| JUndefined
| JNull
| JBool (b : bool)
| JNumber (z : Z)
| JString (s : string)
| JObject (fields : list (string * json)).

Fixpoint assoc (k : string) (fields : list (string * json)) : json :=
  match fields with
  | [] => JUndefined
  | (k', v) :: rest => if String.eqb k k' then v else assoc k rest
  end.

(** Property access [v.k]: a [TypeError] ([None]) on [undefined] and
    [null], [undefined] on a missing key or on a primitive. *)
Definition prop (v : json) (k : string) : option json :=
  match v with
  | JUndefined | JNull => None
  | JObject fields => Some (assoc k fields)
  | JBool _ | JNumber _ | JString _ => Some JUndefined
  end.

(** [v === 's'] for a string literal. *)
Definition is_string (v : json) (s : string) : bool :=
  match v with
  | JString s' => String.eqb s' s
  | _ => false
  end.

(** Truthiness, as tested by [if (v)]. *)
Definition truthy (v : json) : bool :=
  match v with
  | JUndefined | JNull => false
  | JBool b => b
  | JNumber z => negb (z =? 0)
  | JString s => negb (String.eqb s "")
  | JObject _ => true
  end.

End Js.

(** ** models/Order.js *)

Module Order.

(** [status]: the ENUM column of the model. *)
Inductive Status : Type :=
| created
| payment_pending
| confirmed
| assigning
| courier_assigned
| en_route_to_store
| at_store
| picking
| en_route_to_customer
| delivered
| completed
| cancelled
| refunded.

#[global] Instance Status_eq_dec : EqDecision Status.
Proof. solve_decision. Defined.

(** [paymentStatus]. *)
Inductive PaymentStatus : Type :=
| pending
| paid
| failed
| payment_refunded.

#[global] Instance PaymentStatus_eq_dec : EqDecision PaymentStatus.
Proof. solve_decision. Defined.

(** [cancelledBy]. *)
Inductive Actor : Type :=
| customer
| store
| courier
| admin.

#[global] Instance Actor_eq_dec : EqDecision Actor.
Proof. solve_decision. Defined.

(** One element of the [items] JSON column: a copy of the request's
    item.  The request schema has [productId] and [qty]; the cancel
    route also reads a [quantity] property, present only when the
    client sent one. *)
Record Item : Type := mkItem {
  productId : string;
  qty : Z;
  quantity : option Z
}.

#[global] Instance Item_eq_dec : EqDecision Item.
Proof. solve_decision. Defined.

(** A row of [orders]; the primary key [id] is the key of the table. *)
Record t : Type := mk {
  user_id : string;
  store_id : string;
  totalAmount : Z;
  paymentMethod : string;
  status : Status;
  idempotencyKey : string;
  items : list Item;
  paymentStatus : PaymentStatus;
  confirmedAt : option Z;
  assignedAt : option Z;
  pickedUpAt : option Z;
  deliveredAt : option Z;
  actualDeliveryTime : option Z;
  cancelledAt : option Z;
  cancellationReason : option string;
  cancelledBy : option Actor
}.

#[global] Instance t_eq_dec : EqDecision t.
Proof. solve_decision. Defined.

(** Property writes [this.f = v]. *)
Definition set_status (v : Status) (o : t) : t :=
  let 'mk a b c d _ f g h i j k l m n p q := o in mk a b c d v f g h i j k l m n p q.
Definition set_paymentStatus (v : PaymentStatus) (o : t) : t :=
  let 'mk a b c d e f g _ i j k l m n p q := o in mk a b c d e f g v i j k l m n p q.
Definition set_confirmedAt (v : option Z) (o : t) : t :=
  let 'mk a b c d e f g h _ j k l m n p q := o in mk a b c d e f g h v j k l m n p q.
Definition set_assignedAt (v : option Z) (o : t) : t :=
  let 'mk a b c d e f g h i _ k l m n p q := o in mk a b c d e f g h i v k l m n p q.
Definition set_pickedUpAt (v : option Z) (o : t) : t :=
  let 'mk a b c d e f g h i j _ l m n p q := o in mk a b c d e f g h i j v l m n p q.
Definition set_deliveredAt (v : option Z) (o : t) : t :=
  let 'mk a b c d e f g h i j k _ m n p q := o in mk a b c d e f g h i j k v m n p q.
Definition set_actualDeliveryTime (v : option Z) (o : t) : t :=
  let 'mk a b c d e f g h i j k l _ n p q := o in mk a b c d e f g h i j k l v n p q.
Definition set_cancelledAt (v : option Z) (o : t) : t :=
  let 'mk a b c d e f g h i j k l m _ p q := o in mk a b c d e f g h i j k l m v p q.
Definition set_cancellationReason (v : option string) (o : t) : t :=
  let 'mk a b c d e f g h i j k l m n _ q := o in mk a b c d e f g h i j k l m n v q.
Definition set_cancelledBy (v : option Actor) (o : t) : t :=
  let 'mk a b c d e f g h i j k l m n p _ := o in mk a b c d e f g h i j k l m n p v.

(** The [validTransitions] object literal of [canTransitionTo]. *)
Definition validTransitions (s : Status) : list Status :=
  match s with
  | created => [payment_pending; cancelled]
  | payment_pending => [confirmed; cancelled]
  | confirmed => [assigning; cancelled]
  | assigning => [courier_assigned; cancelled]
  | courier_assigned => [en_route_to_store; cancelled]
  | en_route_to_store => [at_store; cancelled]
  | at_store => [picking; cancelled]
  | picking => [en_route_to_customer; cancelled]
  | en_route_to_customer => [delivered; cancelled]
  | delivered => [completed; cancelled]
  | completed => []
  | cancelled => []
  | refunded => []
  end.

(** [Order.prototype.canTransitionTo]. *)
Definition canTransitionTo (this : t) (newStatus : Status) : bool :=
  Js.includes (validTransitions (status this)) newStatus || false.

(** The [additionalData] argument of [transitionTo]: the own properties
    of an object, in insertion order. *)
Inductive Assignment : Type :=
| assign_status (v : Status)
| assign_paymentStatus (v : PaymentStatus)
| assign_cancellationReason (v : option string)
| assign_cancelledBy (v : option Actor)
| assign_cancelledAt (v : option Z).

Definition assign_one (o : t) (a : Assignment) : t :=
  match a with
  | assign_status v => set_status v o
  | assign_paymentStatus v => set_paymentStatus v o
  | assign_cancellationReason v => set_cancellationReason v o
  | assign_cancelledBy v => set_cancelledBy v o
  | assign_cancelledAt v => set_cancelledAt v o
  end.

(** [Object.assign(this, additionalData)]. *)
Definition object_assign (this : t) (additionalData : list Assignment) : t :=
  fold_left assign_one additionalData this.

(** What [transitionTo] throws. *)
Inductive Exception : Type :=
| InvalidTransition (from to : Status).

Inductive Outcome : Type :=
| Throws (e : Exception)
| Saves (o : t).

(** The [switch (newStatus)] that stamps the stage timestamps. *)
Definition stamp (now : Z) (newStatus : Status) (o : t) : t :=
  match newStatus with
  | confirmed => set_confirmedAt (Some now) o
  | courier_assigned => set_assignedAt (Some now) o
  | en_route_to_customer => set_pickedUpAt (Some now) o
  | delivered => set_actualDeliveryTime (Some now) (set_deliveredAt (Some now) o)
  | cancelled => set_cancelledAt (Some now) o
  | _ => o
  end.

(** [Order.prototype.transitionTo]; [Saves o] is the instance handed to
    [this.save()]. *)
Definition transitionTo (now : Z) (this : t) (newStatus : Status)
    (additionalData : list Assignment) : Outcome :=
  if negb (canTransitionTo this newStatus) then
    Throws (InvalidTransition (status this) newStatus)
  else
    Saves (object_assign (stamp now newStatus (set_status newStatus this))
                         additionalData).

(** [Order.findByPk]. *)
Definition findByPk (tbl : gmap string t) (pk : string) : option t :=
  tbl !! pk.

(** [Order.findOne({ where: { idempotencyKey } })]: a row with that key,
    with its primary key. *)
Definition findOne (tbl : gmap string t) (key : string) : option (string * t) :=
  snd <$> list_find (λ kr, idempotencyKey kr.2 = key) (map_to_list tbl).

(** The values that the create route hands to [Order.create], under the
    keys of its object literal; the keys left out here take the defaults
    of the schema. *)
Record Values : Type := mkValues {
  values_user_id : string;
  values_storeId : string;
  values_totalAmount : Z;
  values_paymentMethod : string;
  values_status : Status;
  values_idempotencyKey : string;
  values_items : list Item
}.

(** The value that the attribute [store_id] receives from these values:
    none, since the object has the key [storeId] and no key [store_id]. *)
Definition values_store_id (values : Values) : option string := None.

(** [Order.build(values)] and its validation: the keys that are
    attributes fill their columns, [storeId] is dropped, the other
    columns take their defaults.  [store_id] is [allowNull: false]
    without a default: with no value for it the validation fails
    ([None], the ORM throws). *)
Definition build (values : Values) : option t :=
  match values_store_id values with
  | None => None
  | Some store_id =>
      Some {| user_id := values_user_id values;
              store_id := store_id;
              totalAmount := values_totalAmount values;
              paymentMethod := values_paymentMethod values;
              status := values_status values;
              idempotencyKey := values_idempotencyKey values;
              items := values_items values;
              paymentStatus := pending;
              confirmedAt := None;
              assignedAt := None;
              pickedUpAt := None;
              deliveredAt := None;
              actualDeliveryTime := None;
              cancelledAt := None;
              cancellationReason := None;
              cancelledBy := None |}
  end.

(** [Order.create(values)]: the instance is built and validated, then
    inserted; the insert is refused when the primary key or the unique
    [idempotencyKey] is already taken.  [None] when the ORM throws. *)
Definition create (tbl : gmap string t) (pk : string) (values : Values)
    : option (gmap string t * t) :=
  match build values with
  | None => None
  | Some o =>
      match tbl !! pk, findOne tbl (idempotencyKey o) with
      | None, None => Some (<[pk := o]> tbl, o)
      | _, _ => None
      end
  end.

(** [order.save()]. *)
Definition save (pk : string) (this : t) (tbl : gmap string t) : gmap string t :=
  <[pk := this]> tbl.

(** [Order.update({ paymentStatus: v }, { where: { id } })]; [id] is
    [None] when the expression of the caller evaluates to [undefined],
    which the ORM refuses in a [where] clause ([None], it throws). *)
Definition update_paymentStatus (v : PaymentStatus) (id : option string)
    (tbl : gmap string t) : option (gmap string t) :=
  match id with
  | Some pk => Some (alter (set_paymentStatus v) pk tbl)
  | None => None
  end.

End Order.

(** ** models/Product.js *)

Module Product.

(** The attributes the schema declares, as far as the order routes use
    them: a row of [products]. *)
Record Row : Type := mkRow {
  store_id : string;
  is_active : bool;
  price : Z;
  quantity : Z;
  reserved_quantity : Z
}.

#[global] Instance Row_eq_dec : EqDecision Row.
Proof. solve_decision. Defined.

(** A loaded instance.  [reserved_quantity] is the declared attribute;
    [reservedQuantity], which [reserve] and [releaseReservation] write, is
    not declared by the schema: it is an ordinary property of the
    JavaScript object, [undefined] on an instance that was just loaded and
    not a column that [save()] writes. *)
Record t : Type := mk {
  id : string;
  dataValues : Row;
  reservedQuantity : Js.number
}.

#[global] Instance t_eq_dec : EqDecision t.
Proof. solve_decision. Defined.

(** What [findByPk] and [findAll] build from a row. *)
Definition load (pk : string) (r : Row) : t :=
  {| id := pk; dataValues := r; reservedQuantity := Js.Undefined |}.

Definition set_reservedQuantity (v : Js.number) (this : t) : t :=
  {| id := id this; dataValues := dataValues this; reservedQuantity := v |}.

(** [Product.prototype.getAvailableQuantity]. *)
Definition getAvailableQuantity (this : t) : Z :=
  Z.max 0 (quantity (dataValues this) - reserved_quantity (dataValues this)).

(** [Product.prototype.canReserve]. *)
Definition canReserve (this : t) (amount : Z) : bool :=
  bool_decide (getAvailableQuantity this >= amount).

Inductive Exception : Type :=
| InsufficientStock.

Inductive Outcome : Type :=
| Throws (e : Exception)
| Saves (p : t).

(** [Product.prototype.reserve]; [Saves p] is the instance handed to
    [this.save()]. *)
Definition reserve (this : t) (amount : Z) : Outcome :=
  if negb (canReserve this amount) then Throws InsufficientStock
  else Saves (set_reservedQuantity (Js.add (reservedQuantity this) amount) this).

(** [Product.prototype.releaseReservation]. *)
Definition releaseReservation (this : t) (amount : Z) : t :=
  set_reservedQuantity (Js.max0 (Js.sub (reservedQuantity this) amount)) this.

(** [Product.prototype.getFinalPrice].  The discount is read from
    [this.discountPercentage], which the schema does not declare either
    (the attribute is [discount_percentage]); [undefined > 0] is false and
    the method returns [this.price]. *)
Definition getFinalPrice (this : t) : Z :=
  price (dataValues this).

(** [this.save()]: the declared attributes are written to the row. *)
Definition save (this : t) (tbl : gmap string Row) : gmap string Row :=
  <[id this := dataValues this]> tbl.

(** [Product.findByPk]. *)
Definition findByPk (tbl : gmap string Row) (pk : string) : option t :=
  load pk <$> tbl !! pk.

(** The keys of a [where] clause of [Product.findAll]: a condition on
    one of the columns of the schema, or a key that is none of them. *)
Inductive Where : Type :=
| where_id (ids : list string)
| where_store_id (v : string)
| where_is_active (v : bool)
| where_undeclared (key : string).

Definition declared (w : Where) : bool :=
  match w with
  | where_undeclared _ => false
  | _ => true
  end.

Definition holds (pk : string) (r : Row) (w : Where) : bool :=
  match w with
  | where_id ids => bool_decide (pk ∈ ids)
  | where_store_id v => String.eqb (store_id r) v
  | where_is_active v => Bool.eqb (is_active r) v
  | where_undeclared _ => false
  end.

(** [Product.findAll({ where })]: the rows that meet every condition,
    loaded; [None] (the query throws) when a key of the clause is not a
    column. *)
Definition findAll (tbl : gmap string Row) (clause : list Where) : option (list t) :=
  if forallb declared clause then
    Some ((λ kr, load kr.1 kr.2) <$>
            filter (λ kr, forallb (holds kr.1 kr.2) clause = true) (map_to_list tbl))
  else None.

(** [products.find((p) => p.id === productId)]. *)
Definition find (products : list t) (productId : string) : option t :=
  List.find (λ p, String.eqb (id p) productId) products.

(** The array holds references: a method call on the element found
    mutates the element of the array. *)
Definition replace (p : t) (products : list t) : list t :=
  (λ q, if String.eqb (id q) (id p) then p else q) <$> products.

End Product.

(** ** models/Store.js and models/Payment.js *)

Module Store.

Inductive Status : Type :=
| open
| closed
| temporarily_closed.

#[global] Instance Status_eq_dec : EqDecision Status.
Proof. solve_decision. Defined.

Record t : Type := mk {
  status : Status
}.

End Store.

Module Payment.

Inductive Status : Type :=
| pending
| authorized
| captured
| failed
| refunded.

#[global] Instance Status_eq_dec : EqDecision Status.
Proof. solve_decision. Defined.

(** A row of [payments], under the names of the schema: [order_id] is
    the reference to the owning order.  The repository holds two
    revisions of the model; they agree on [order_id], [provider],
    [amount], [status] and [metadata] and differ in the spelling of the
    provider payment id and of the capture time.  The embedding follows
    the revision that spells them [providerPaymentId] and [capturedAt],
    as the routes do. *)
Record t : Type := mk {
  order_id : string;
  provider : string;
  providerPaymentId : option string;
  amount : Z;
  status : Status;
  capturedAt : option Z
}.

Definition set_status (v : Status) (p : t) : t :=
  let 'mk a b c d _ f := p in mk a b c d v f.
Definition set_providerPaymentId (v : option string) (p : t) : t :=
  let 'mk a b _ d e f := p in mk a b v d e f.
Definition set_capturedAt (v : option Z) (p : t) : t :=
  let 'mk a b c d e _ := p in mk a b c d e v.

(** [payment.orderId] on a loaded instance: the schema declares
    [order_id], no attribute is called [orderId] and nothing assigns
    one, so the property is [undefined] ([None]). *)
Definition orderId (this : t) : option string := None.

(** [payment.providerPaymentId = v] as [save()] writes it to the
    STRING column: a string is stored, [null] is stored as NULL, an
    [undefined] value is skipped and the column keeps what it held; any
    other value fails the validation of the column ([None], [save()]
    throws). *)
Definition assign_providerPaymentId (v : Js.json) (this : t) : option t :=
  match v with
  | Js.JString s => Some (set_providerPaymentId (Some s) this)
  | Js.JNull => Some (set_providerPaymentId None this)
  | Js.JUndefined => Some this
  | _ => None
  end.

(** The values that [POST /api/v1/payments/create] hands to
    [Payment.create], under the keys of its object literal. *)
Record Values : Type := mkValues {
  values_orderId : string;
  values_provider : string;
  values_providerPaymentId : string;
  values_amount : Z;
  values_status : Status;
  values_metadata : list (string * Js.json)
}.

(** The value that the attribute [order_id] receives from these values:
    none, since the object has the key [orderId] and no key [order_id]. *)
Definition values_order_id (values : Values) : option string := None.

(** [Payment.build(values)] and its validation: [orderId] is dropped,
    and [order_id], [allowNull: false] without a default, has no value
    ([None], the ORM throws). *)
Definition build (values : Values) : option t :=
  match values_order_id values with
  | None => None
  | Some order_id =>
      Some {| order_id := order_id;
              provider := values_provider values;
              providerPaymentId := Some (values_providerPaymentId values);
              amount := values_amount values;
              status := values_status values;
              capturedAt := None |}
  end.

(** [Payment.create(values)]: built and validated, then inserted under
    a primary key that must be free. *)
Definition create (tbl : gmap string t) (pk : string) (values : Values)
    : option (gmap string t * t) :=
  match build values with
  | None => None
  | Some p =>
      match tbl !! pk with
      | None => Some (<[pk := p]> tbl, p)
      | Some _ => None
      end
  end.

End Payment.

(** ** The database *)

Record Db : Type := mkDb {
  orders : gmap string Order.t;
  products : gmap string Product.Row;
  payments : gmap string Payment.t;
  stores : gmap string Store.t
}.

Definition set_orders (v : gmap string Order.t) (db : Db) : Db :=
  {| orders := v; products := products db; payments := payments db; stores := stores db |}.
Definition set_products (v : gmap string Product.Row) (db : Db) : Db :=
  {| orders := orders db; products := v; payments := payments db; stores := stores db |}.
Definition set_payments (v : gmap string Payment.t) (db : Db) : Db :=
  {| orders := orders db; products := products db; payments := v; stores := stores db |}.

(** What a route sends back: the HTTP status and the JSON body. *)
Inductive Body : Type :=
| OrderRef (orderId : string) (status : Order.Status)
| Failure (error : string)
| Message (message : string)
| Success
| WebhookError (error : string).

Record Response : Type := mkResponse {
  code : Z;
  body : Body
}.

(** ** routes/orders.js *)

Module Orders.

(** [POST /api/v1/orders]: the authenticated caller, the request body,
    and the two identifiers the handler may draw. *)
Record CreateRequest : Type := mkCreateRequest {
  create_user : string;
  items : list Order.Item;
  storeId : string;
  deliveryAddress : Js.json;
  paymentMethod : string;
  idempotency_key : option string;
  uuidv4 : string;
  new_order_id : string
}.

(** The express-validator chain of the route. *)
Definition validationResult (req : CreateRequest) : bool :=
  bool_decide (1 ≤ length (items req))%nat
  && negb (String.eqb (storeId req) "")
  && match deliveryAddress req with Js.JObject _ => true | _ => false end
  && Js.includes ["card"; "cash"; "wallet"]%string (paymentMethod req).

(** First loop: the product id of the first item that cannot be reserved. *)
Fixpoint checkStock (products : list Product.t) (items : list Order.Item)
    : option string :=
  match items with
  | [] => None
  | item :: rest =>
      match Product.find products (Order.productId item) with
      | Some product =>
          if negb (Product.canReserve product (Order.qty item))
          then Some (Order.productId item)
          else checkStock products rest
      | None => Some (Order.productId item)
      end
  end.

(** Second loop: [await product.reserve(item.qty)] for every item.  A
    throw leaves the table as the earlier iterations saved it. *)
Inductive Applied : Type :=
| Reserved (products : list Product.t) (tbl : gmap string Product.Row)
| Threw (tbl : gmap string Product.Row).

Fixpoint applyReservations (products : list Product.t)
    (tbl : gmap string Product.Row) (items : list Order.Item) : Applied :=
  match items with
  | [] => Reserved products tbl
  | item :: rest =>
      match Product.find products (Order.productId item) with
      | None => Threw tbl
      | Some product =>
          match Product.reserve product (Order.qty item) with
          | Product.Throws _ => Threw tbl
          | Product.Saves p =>
              applyReservations (Product.replace p products) (Product.save p tbl) rest
          end
      end
  end.

(** [items.reduce((sum, item) => sum + Number(product.getFinalPrice()) * item.qty, 0)];
    [None] when a product is missing (a [TypeError]). *)
Fixpoint subtotal (products : list Product.t) (sum : Z) (items : list Order.Item)
    : option Z :=
  match items with
  | [] => Some sum
  | item :: rest =>
      match Product.find products (Order.productId item) with
      | None => None
      | Some product =>
          subtotal products (sum + Product.getFinalPrice product * Order.qty item) rest
      end
  end.

Definition internal_error (db : Db) (msg : string) : Db * Response :=
  (db, mkResponse 500 (Failure msg)).

(** [const idempotencyKey = req.body.idempotency_key || uuidv4()]. *)
Definition idempotencyKey (req : CreateRequest) : string :=
  Js.or_string (idempotency_key req) (uuidv4 req).

(** The object literal handed to [Order.create]. *)
Definition orderValues (req : CreateRequest) (totalAmount : Z) : Order.Values :=
  {| Order.values_user_id := create_user req;
     Order.values_storeId := storeId req;
     Order.values_totalAmount := totalAmount;
     Order.values_paymentMethod := paymentMethod req;
     Order.values_status :=
       if String.eqb (paymentMethod req) "cash"
       then Order.confirmed else Order.payment_pending;
     Order.values_idempotencyKey := idempotencyKey req;
     Order.values_items := items req |}.

(** The [where] clause of the product query of the create route,
    [{ id: productIds, storeId, is_active: true }]: [storeId] is not a
    column of [products], whose schema declares [store_id]. *)
Definition productsWhere (req : CreateRequest) : list Product.Where :=
  [Product.where_id (Order.productId <$> items req);
   Product.where_undeclared "storeId";
   Product.where_is_active true].

(** The handler of [POST /api/v1/orders]. *)
Definition createOrder (db : Db) (req : CreateRequest) : Db * Response :=
  if negb (validationResult req) then
    (db, mkResponse 422 (Failure "Validation failed"))
  else
    let idempotencyKey := idempotencyKey req in
    match Order.findOne (orders db) idempotencyKey with
    | Some (existing_id, existing) =>
        (db, mkResponse 200 (OrderRef existing_id (Order.status existing)))
    | None =>
        match stores db !! storeId req with
        | None => (db, mkResponse 400 (Failure "Store not available"))
        | Some store =>
            if negb (bool_decide (Store.status store = Store.open)) then
              (db, mkResponse 400 (Failure "Store not available"))
            else
              let table := products db in
              match Product.findAll table (productsWhere req) with
              | None => internal_error db "Failed to create order"
              | Some products =>
                  if negb (bool_decide (length products = length (items req))) then
                    (db, mkResponse 400 (Failure "Some products are not available"))
                  else
                    match checkStock products (items req) with
                    | Some productId =>
                        (db, mkResponse 400 (Failure ("Insufficient stock for " +:+ productId)))
                    | None =>
                        match applyReservations products table (items req) with
                        | Threw tbl =>
                            internal_error (set_products tbl db) "Failed to create order"
                        | Reserved products tbl =>
                            let db := set_products tbl db in
                            match subtotal products 0 (items req) with
                            | None => internal_error db "Failed to create order"
                            | Some subtotal =>
                                let deliveryFee := 0 in
                                let totalAmount := subtotal + deliveryFee in
                                match Order.create (orders db) (new_order_id req)
                                        (orderValues req totalAmount) with
                                | None => internal_error db "Failed to create order"
                                | Some (tbl, order) =>
                                    (set_orders tbl db,
                                     mkResponse 201
                                       (OrderRef (new_order_id req) (Order.status order)))
                                end
                            end
                        end
                    end
              end
        end
    end.

(** [POST /api/v1/orders/:orderId/cancel]. *)
Record CancelRequest : Type := mkCancelRequest {
  cancel_user : string;
  orderId : string;
  reason : option string
}.

(** The statuses the cancel route accepts. *)
Definition cancellable : list Order.Status :=
  [Order.created; Order.payment_pending; Order.confirmed; Order.assigning].

(** The release loop of the cancel route. *)
Fixpoint releaseStock (tbl : gmap string Product.Row) (items : list Order.Item)
    : gmap string Product.Row :=
  match items with
  | [] => tbl
  | item :: rest =>
      let amount := Js.or_number (Order.quantity item) (Js.or_number (Some (Order.qty item)) 0) in
      match Product.findByPk tbl (Order.productId item) with
      | Some product =>
          releaseStock (Product.save (Product.releaseReservation product amount) tbl) rest
      | None => releaseStock tbl rest
      end
  end.

(** The handler of [POST /api/v1/orders/:orderId/cancel]. *)
Definition cancelOrder (now : Z) (db : Db) (req : CancelRequest) : Db * Response :=
  match Order.findByPk (orders db) (orderId req) with
  | None => (db, mkResponse 404 (Failure "Order not found"))
  | Some order =>
      if negb (String.eqb (Order.user_id order) (cancel_user req)) then
        (db, mkResponse 404 (Failure "Order not found"))
      else if negb (Js.includes cancellable (Order.status order)) then
        (db, mkResponse 400 (Failure "Order cannot be cancelled"))
      else
        let order :=
          Order.set_cancellationReason (reason req)
            (Order.set_cancelledBy (Some Order.customer)
              (Order.set_cancelledAt (Some now)
                (Order.set_status Order.cancelled order))) in
        let db := set_orders (Order.save (orderId req) order (orders db)) db in
        let db := set_products (releaseStock (products db) (Order.items order)) db in
        (db, mkResponse 200 (Message "Order cancelled"))
  end.

End Orders.

(** ** routes/payments.js *)

Module Payments.

(** [POST /api/v1/payments/webhook/:provider]: the path parameter, the
    request headers and the parsed body.  The route has no authentication
    middleware; its signature check is commented out, so the handler never
    reads the headers. *)
Record WebhookRequest : Type := mkWebhookRequest {
  provider : string;
  headers : list (string * string);
  webhookData : Js.json
}.

(** The outcome of the [switch (provider)]. *)
Inductive Extracted : Type :=
| TypeError
| NoCase
| Fields (paymentId : Js.json) (status : Payment.Status) (transactionId : Js.json).

Definition outcome (v : Js.json) (success : string) : Payment.Status :=
  if Js.is_string v success then Payment.captured else Payment.failed.

(** [a.k1.k2...]: property access along a path. *)
Fixpoint path (v : Js.json) (ks : list string) : option Js.json :=
  match ks with
  | [] => Some v
  | k :: rest =>
      match Js.prop v k with
      | Some v' => path v' rest
      | None => None
      end
  end.

Definition extract3 (data : Js.json) (id_path status_path tx_path : list string)
    (success : string) : Extracted :=
  match path data id_path with
  | None => TypeError
  | Some paymentId =>
      match path data status_path with
      | None => TypeError
      | Some st =>
          match path data tx_path with
          | None => TypeError
          | Some transactionId => Fields paymentId (outcome st success) transactionId
          end
      end
  end.

(** The [switch (provider)] of the webhook handler. *)
Definition extract (provider : string) (data : Js.json) : Extracted :=
  if String.eqb provider "click" then
    extract3 data ["merchant_trans_id"] ["status"] ["click_trans_id"] "success"
  else if String.eqb provider "payme" then
    extract3 data ["params"; "id"] ["result"; "status"] ["result"; "transaction"] "success"
  else if String.eqb provider "uzum" then
    extract3 data ["payment_id"] ["status"] ["transaction_id"] "completed"
  else if String.eqb provider "stripe" then
    extract3 data ["data"; "object"; "metadata"; "payment_id"]
                  ["data"; "object"; "status"] ["data"; "object"; "id"] "succeeded"
  else NoCase.

(** [Payment.findByPk(paymentId)]: payment ids are strings; a key of
    another type matches no row. *)
Definition findByPk (tbl : gmap string Payment.t) (paymentId : Js.json)
    : option (string * Payment.t) :=
  match paymentId with
  | Js.JString pk => (λ p, (pk, p)) <$> tbl !! pk
  | _ => None
  end.

(** How the body of [if (payment) { ... }] ends: it runs to its end, or
    it throws; in both cases with the database as the writes made so far
    leave it. *)
Inductive Reconciled : Type :=
| Done (db : Db)
| Thrown (db : Db).

(** [await payment.save()] for a payment whose [providerPaymentId] was
    assigned: the row is written with the assigned [status] and
    [capturedAt] and with the provider payment id, unless that one is
    refused. *)
Definition save (db : Db) (pk : string) (payment : Payment.t)
    (providerPaymentId : Js.json) : Reconciled :=
  match Payment.assign_providerPaymentId providerPaymentId payment with
  | Some payment => Done (set_payments (<[pk := payment]> (payments db)) db)
  | None => Thrown db
  end.

(** The body of [if (payment) { ... }].  On a capture the order is
    looked up by [payment.orderId], before the payment is saved. *)
Definition reconcile (now : Z) (db : Db) (pk : string) (payment : Payment.t)
    (status : Payment.Status) (transactionId : Js.json) : Reconciled :=
  let payment := Payment.set_status status payment in
  let providerPaymentId := transactionId in
  if bool_decide (status = Payment.captured) then
    let payment := Payment.set_capturedAt (Some now) payment in
    match Order.update_paymentStatus Order.paid (Payment.orderId payment) (orders db) with
    | None => Thrown db
    | Some tbl => save (set_orders tbl db) pk payment providerPaymentId
    end
  else
    save db pk payment providerPaymentId.

(** The handler of [POST /api/v1/payments/webhook/:provider]. *)
Definition webhook (now : Z) (db : Db) (req : WebhookRequest) : Db * Response :=
  match extract (provider req) (webhookData req) with
  | TypeError => (db, mkResponse 500 (WebhookError "Webhook processing failed"))
  | NoCase => (db, mkResponse 200 Success)
  | Fields paymentId status transactionId =>
      if Js.truthy paymentId then
        match findByPk (payments db) paymentId with
        | Some (pk, payment) =>
            match reconcile now db pk payment status transactionId with
            | Done db => (db, mkResponse 200 Success)
            | Thrown db => (db, mkResponse 500 (WebhookError "Webhook processing failed"))
            end
        | None => (db, mkResponse 200 Success)
        end
      else (db, mkResponse 200 Success)
  end.

End Payments.

(** ** The transition table of the specification *)

(** The allowed-target sets as the specification lists them, to be
    compared with [Order.validTransitions]; [completed], [cancelled] and
    [refunded] have no row. *)
Inductive spec_allowed : Order.Status → Order.Status → Prop :=
| created_to_payment_pending : spec_allowed Order.created Order.payment_pending
| created_to_cancelled : spec_allowed Order.created Order.cancelled
| payment_pending_to_confirmed : spec_allowed Order.payment_pending Order.confirmed
| payment_pending_to_cancelled : spec_allowed Order.payment_pending Order.cancelled
| confirmed_to_assigning : spec_allowed Order.confirmed Order.assigning
| confirmed_to_cancelled : spec_allowed Order.confirmed Order.cancelled
| assigning_to_courier_assigned : spec_allowed Order.assigning Order.courier_assigned
| assigning_to_cancelled : spec_allowed Order.assigning Order.cancelled
| courier_assigned_to_en_route_to_store :
    spec_allowed Order.courier_assigned Order.en_route_to_store
| courier_assigned_to_cancelled : spec_allowed Order.courier_assigned Order.cancelled
| en_route_to_store_to_at_store : spec_allowed Order.en_route_to_store Order.at_store
| en_route_to_store_to_cancelled : spec_allowed Order.en_route_to_store Order.cancelled
| at_store_to_picking : spec_allowed Order.at_store Order.picking
| at_store_to_cancelled : spec_allowed Order.at_store Order.cancelled
| picking_to_en_route_to_customer : spec_allowed Order.picking Order.en_route_to_customer
| picking_to_cancelled : spec_allowed Order.picking Order.cancelled
| en_route_to_customer_to_delivered :
    spec_allowed Order.en_route_to_customer Order.delivered
| en_route_to_customer_to_cancelled :
    spec_allowed Order.en_route_to_customer Order.cancelled
| delivered_to_completed : spec_allowed Order.delivered Order.completed
| delivered_to_cancelled : spec_allowed Order.delivered Order.cancelled.

(** ** Derived notions used by the statements *)

(** The stock a customer can still order, as [getAvailableQuantity]
    reports it on a fresh load of the product. *)
Definition available (db : Db) (productId : string) : option Z :=
  Product.getAvailableQuantity <$> Product.findByPk (products db) productId.

(** An instance whose attributes are those of its row. *)
Definition loaded_from (tbl : gmap string Product.Row) (p : Product.t) : Prop :=
  tbl !! Product.id p = Some (Product.dataValues p).

(** The payment a webhook is matched with, if any, and the fields
    extracted from its body. *)
Definition matched (db : Db) (req : Payments.WebhookRequest)
    : option (string * Payment.t * Payment.Status * Js.json) :=
  match Payments.extract (Payments.provider req) (Payments.webhookData req) with
  | Payments.Fields paymentId st tx =>
      if Js.truthy paymentId
      then (λ kp, (kp.1, kp.2, st, tx)) <$> Payments.findByPk (payments db) paymentId
      else None
  | _ => None
  end.

(** ** Sample data *)

Module Sample.

Definition apples : Product.Row :=
  {| Product.store_id := "S"; Product.is_active := true; Product.price := 1000;
     Product.quantity := 5; Product.reserved_quantity := 0 |}.

Definition pears : Product.Row :=
  {| Product.store_id := "S"; Product.is_active := true; Product.price := 700;
     Product.quantity := 1; Product.reserved_quantity := 0 |}.

(** A store with 5 units of P and 1 unit of Q, nothing reserved, no
    orders yet. *)
Definition shop : Db :=
  {| orders := ∅;
     products := {[ "P"%string := apples; "Q"%string := pears ]};
     payments := ∅;
     stores := {[ "S"%string := Store.mk Store.open ]} |}.

Definition order_lines (lines : list Order.Item) (key : string)
    : Orders.CreateRequest :=
  {| Orders.create_user := "alice";
     Orders.items := lines;
     Orders.storeId := "S";
     Orders.deliveryAddress := Js.JObject [("text"%string, Js.JString "Amir Temur 1")];
     Orders.paymentMethod := "card";
     Orders.idempotency_key := Some key;
     Orders.uuidv4 := "7d1f0a52";
     Orders.new_order_id := "order-1" |}.

(** Two units of P. *)
Definition two_units : Orders.CreateRequest :=
  order_lines [Order.mkItem "P" 2 None] "K".

(** Two units of P and one of Q. *)
Definition two_lines : Orders.CreateRequest :=
  order_lines [Order.mkItem "P" 2 None; Order.mkItem "Q" 1 None] "K2".

(** Two units of P and three of Q, of which there is one. *)
Definition too_many_pears : Orders.CreateRequest :=
  order_lines [Order.mkItem "P" 2 None; Order.mkItem "Q" 3 None] "K3".

Definition cancel_order_1 : Orders.CancelRequest :=
  {| Orders.cancel_user := "alice"; Orders.orderId := "order-1";
     Orders.reason := Some "changed my mind"%string |}.

(** Alice's order [order-1] for two units of P, under the key K, in a
    given status. *)
Definition order_in (st : Order.Status) : Order.t :=
  {| Order.user_id := "alice";
     Order.store_id := "S";
     Order.totalAmount := 2000;
     Order.paymentMethod := "card";
     Order.status := st;
     Order.idempotencyKey := "K";
     Order.items := [Order.mkItem "P" 2 None];
     Order.paymentStatus := Order.pending;
     Order.confirmedAt := None;
     Order.assignedAt := None;
     Order.pickedUpAt := None;
     Order.deliveredAt := None;
     Order.actualDeliveryTime := None;
     Order.cancelledAt := None;
     Order.cancellationReason := None;
     Order.cancelledBy := None |}.

(** A pending payment of that order. *)
Definition pay1 : Payment.t :=
  {| Payment.order_id := "order-1"; Payment.provider := "click";
     Payment.providerPaymentId := Some "click_1700000000000_k3j9x0q1z"%string;
     Payment.amount := 2000; Payment.status := Payment.pending;
     Payment.capturedAt := None |}.

(** The shop with that order in status [st] and its pending payment. *)
Definition ledger (st : Order.Status) : Db :=
  {| orders := {[ "order-1"%string := order_in st ]};
     products := products shop;
     payments := {[ "pay1"%string := pay1 ]};
     stores := stores shop |}.

(** Click reports the payment [pay1] as settled.  The request carries
    no header at all, so no signature either. *)
Definition click_success : Payments.WebhookRequest :=
  {| Payments.provider := "click";
     Payments.headers := [];
     Payments.webhookData :=
       Js.JObject [("merchant_trans_id"%string, Js.JString "pay1");
                   ("status"%string, Js.JString "success");
                   ("click_trans_id"%string, Js.JString "tx-1")] |}.

(** Click reports that the payment [pay1] has failed; no header, so no
    signature either. *)
Definition click_failure : Payments.WebhookRequest :=
  {| Payments.provider := "click";
     Payments.headers := [];
     Payments.webhookData :=
       Js.JObject [("merchant_trans_id"%string, Js.JString "pay1");
                   ("status"%string, Js.JString "error");
                   ("click_trans_id"%string, Js.JString "tx-2")] |}.

(** The ledger with the two units of [order-1] held in the reserved
    column of P. *)
Definition held (st : Order.Status) : Db :=
  set_products
    (<[ "P"%string :=
          {| Product.store_id := "S"; Product.is_active := true; Product.price := 1000;
             Product.quantity := 5; Product.reserved_quantity := 2 |} ]>
       (products shop))
    (ledger st).

End Sample.

(** ** Further columns and replies *)

(** The [metadata] JSON column of [payments], which the payment routes
    below write and which [Payment.t] leaves out: the object stored for
    each payment, by primary key; no entry is a NULL column. *)
Record Tables : Type := mkTables {
  db : Db;
  metadata : gmap string (list (string * Js.json))
}.

Definition set_db (v : Db) (t : Tables) : Tables :=
  {| db := v; metadata := metadata t |}.
Definition set_metadata (v : gmap string (list (string * Js.json))) (t : Tables) : Tables :=
  {| db := db t; metadata := v |}.

(** The answer of a route: [{ success: true, data }] with status 200,
    or [{ success: false, error }] with an error status. *)
Inductive Reply (A : Type) : Type :=
| Data (data : A)
| Refusal (code : Z) (error : string).

Arguments Data {A} data.
Arguments Refusal {A} code error.

(** [{ ...fields, k: v }]: an own property keeps its place and takes the
    new value, a new one is added last. *)
Fixpoint spread_with (fields : list (string * Js.json)) (k : string) (v : Js.json)
    : list (string * Js.json) :=
  match fields with
  | [] => [(k, v)]
  | (k', v') :: rest =>
      if String.eqb k' k then (k', v) :: rest else (k', v') :: spread_with rest k v
  end.

(** ** routes/orders.js: rating an order *)

Module OrderRoutes.

(** [Order.findOne({ where: { id: orderId, user_id: req.user.id } })]. *)
Definition findOwned (tbl : gmap string Order.t) (orderId user : string)
    : option Order.t :=
  match tbl !! orderId with
  | Some order => if String.eqb (Order.user_id order) user then Some order else None
  | None => None
  end.

(** [POST /api/v1/orders/:orderId/rate]. *)
Record RateRequest : Type := mkRateRequest {
  rate_user : string;
  rate_orderId : string;
  rating : Z;
  feedback : option string
}.

(** What the rate route assigns to the order before [order.save()]. *)
Record Rated : Type := mkRated {
  customerRating : Z;
  customerFeedback : option string
}.

(** The handler of [POST /api/v1/orders/:orderId/rate], up to the call of
    [order.save()]; [trim] is the sanitizer of the validation chain. *)
Definition rateOrder (trim : string → string) (db : Db) (req : RateRequest)
    : Reply Rated :=
  if negb (bool_decide (1 ≤ rating req ≤ 5)) then Refusal 422 "Validation failed"
  else
    let feedback := trim <$> feedback req in
    match findOwned (orders db) (rate_orderId req) (rate_user req) with
    | None => Refusal 404 "Order not found"
    | Some order =>
        if bool_decide (Order.status order ≠ Order.delivered)
           && bool_decide (Order.status order ≠ Order.completed)
        then Refusal 400 "Order must be delivered to rate"
        else Data {| customerRating := rating req; customerFeedback := feedback |}
    end.

End OrderRoutes.

(** ** routes/payments.js: creating, reading and refunding a payment *)

Module PaymentRoutes.

(** [POST /api/v1/payments/create]: the caller, the body, and what the
    handler draws from the clock, the random generator and the id
    default. *)
Record CreateRequest : Type := mkCreateRequest {
  create_user : string;
  orderId : string;
  provider : string;
  amount : option Z;
  now : Z;
  random : string;
  new_payment_id : string;
  createdAt : string
}.

Record Created : Type := mkCreated {
  paymentId : string;
  paymentUrl : string;
  providerPaymentId : string;
  created_amount : Z
}.

Definition providers : list string := ["click"; "payme"; "uzum"; "stripe"]%string.

(** [body('amount').optional().isFloat({ min: 0 })]. *)
Definition amount_ok (amount : option Z) : bool :=
  match amount with
  | Some a => bool_decide (0 ≤ a)
  | None => true
  end.

Definition createValidation (req : CreateRequest) : bool :=
  negb (String.eqb (orderId req) "")
  && Js.includes providers (provider req)
  && amount_ok (amount req).

(** [Payment.findOne({ where: { id }, include: [{ model: Order, as:
    'order', where: { user_id } }] })]: the payment, if its order exists
    and belongs to the user. *)
Definition findOwned (db : Db) (paymentId user : string) : option Payment.t :=
  match payments db !! paymentId with
  | Some payment =>
      match OrderRoutes.findOwned (orders db) (Payment.order_id payment) user with
      | Some _ => Some payment
      | None => None
      end
  | None => None
  end.

(** The [switch (provider)] that builds the payment URL; [amountText]
    is how the template prints the amount. *)
Definition url (amountText : Z → string) (provider : string) (paymentAmount : Z)
    (payment_id providerPaymentId : string) : string :=
  if String.eqb provider "click" then
    "https://my.click.uz/services/pay?service_id=YOUR_SERVICE_ID&merchant_id=YOUR_MERCHANT_ID&amount="
    +:+ amountText paymentAmount +:+ "&transaction_param=" +:+ payment_id
  else if String.eqb provider "payme" then
    "https://checkout.paycom.uz/" +:+ providerPaymentId
  else if String.eqb provider "uzum" then
    "https://uzumbank.uz/payment/" +:+ providerPaymentId
  else if String.eqb provider "stripe" then
    "https://checkout.stripe.com/pay/" +:+ providerPaymentId
  else "".

(** The handler of [POST /api/v1/payments/create]. *)
Definition createPayment (amountText : Z → string) (t : Tables) (req : CreateRequest)
    : Tables * Reply Created :=
  if negb (createValidation req) then (t, Refusal 422 "Validation failed")
  else
    match OrderRoutes.findOwned (orders (db t)) (orderId req) (create_user req) with
    | None => (t, Refusal 404 "Order not found")
    | Some order =>
        if bool_decide (Order.paymentStatus order = Order.paid) then
          (t, Refusal 400 "Order already paid")
        else
          let paymentAmount := Js.or_number (amount req) (Order.totalAmount order) in
          let providerPaymentId :=
            provider req +:+ "_" +:+ pretty (now req) +:+ "_" +:+ random req in
          let values :=
            {| Payment.values_orderId := orderId req;
               Payment.values_provider := provider req;
               Payment.values_providerPaymentId := providerPaymentId;
               Payment.values_amount := paymentAmount;
               Payment.values_status := Payment.pending;
               Payment.values_metadata :=
                 [("user_id", Js.JString (create_user req));
                  ("orderNumber", Js.JString (orderId req));
                  ("createdAt", Js.JString (createdAt req))]%string |} in
          match Payment.create (payments (db t)) (new_payment_id req) values with
          | None => (t, Refusal 500 "Failed to create payment")
          | Some (tbl, payment) =>
              let t :=
                set_metadata
                  (<[new_payment_id req := Payment.values_metadata values]> (metadata t))
                  (set_db (set_payments tbl (db t)) t) in
              (t, Data {| paymentId := new_payment_id req;
                          paymentUrl := url amountText (provider req) paymentAmount
                                          (new_payment_id req) providerPaymentId;
                          providerPaymentId := providerPaymentId;
                          created_amount := paymentAmount |})
          end
    end.

(** The [attributes: ['id', 'totalAmount', 'status']] of the order
    included in the reply of the status route. *)
Record OrderSummary : Type := mkOrderSummary {
  summary_id : string;
  summary_totalAmount : Z;
  summary_status : Order.Status
}.

(** The handler of [GET /api/v1/payments/:paymentId/status]: the
    payment with the summary of its order, if that order belongs to the
    caller. *)
Definition getPaymentStatus (t : Tables) (user paymentId : string)
    : Reply (Payment.t * OrderSummary) :=
  match payments (db t) !! paymentId with
  | None => Refusal 404 "Payment not found"
  | Some payment =>
      match OrderRoutes.findOwned (orders (db t)) (Payment.order_id payment) user with
      | None => Refusal 404 "Payment not found"
      | Some order =>
          Data (payment,
                {| summary_id := Payment.order_id payment;
                   summary_totalAmount := Order.totalAmount order;
                   summary_status := Order.status order |})
      end
  end.

(** [POST /api/v1/payments/refund]. *)
Record RefundRequest : Type := mkRefundRequest {
  refund_user : string;
  refund_paymentId : string;
  reason : string;
  refund_amount : option Z;
  refund_now : Z;
  refund_random : string;
  requestedAt : string
}.

Record Refunded : Type := mkRefunded {
  refundId : string;
  refund_status : string;
  refunded_amount : Z
}.

Definition refundValidation (req : RefundRequest) : bool :=
  negb (String.eqb (refund_paymentId req) "")
  && negb (String.eqb (reason req) "")
  && amount_ok (refund_amount req).

(** The handler of [POST /api/v1/payments/refund]. *)
Definition refundPayment (t : Tables) (req : RefundRequest) : Tables * Reply Refunded :=
  if negb (refundValidation req) then (t, Refusal 422 "Validation failed")
  else
    match findOwned (db t) (refund_paymentId req) (refund_user req) with
    | None => (t, Refusal 404 "Payment not found")
    | Some payment =>
        if negb (bool_decide (Payment.status payment = Payment.captured)) then
          (t, Refusal 400 "Payment cannot be refunded")
        else
          let refundAmount := Js.or_number (refund_amount req) (Payment.amount payment) in
          let refundId :=
            "refund_" +:+ pretty (refund_now req) +:+ "_" +:+ refund_random req in
          let refund :=
            Js.JObject
              [("id", Js.JString refundId);
               ("amount", Js.JNumber refundAmount);
               ("reason", Js.JString (reason req));
               ("requestedAt", Js.JString (requestedAt req));
               ("requestedBy", Js.JString (refund_user req))]%string in
          let old := default [] (metadata t !! refund_paymentId req) in
          let t :=
            set_metadata (<[refund_paymentId req := spread_with old "refund" refund]> (metadata t))
              (set_db (set_payments
                         (<[refund_paymentId req := Payment.set_status Payment.refunded payment]>
                            (payments (db t)))
                         (db t)) t) in
          (t, Data {| refundId := refundId; refund_status := "pending";
                      refunded_amount := refundAmount |})
    end.

End PaymentRoutes.

(** ** Runs of the state machine *)

(** [order.transitionTo(X)] for each target in turn, each at its own
    time; [None] as soon as one of them throws. *)
Fixpoint transitions (this : Order.t) (steps : list (Z * Order.Status))
    : option Order.t :=
  match steps with
  | [] => Some this
  | (now, newStatus) :: rest =>
      match Order.transitionTo now this newStatus [] with
      | Order.Saves o => transitions o rest
      | Order.Throws _ => None
      end
  end.

(** How far a status is along the life of an order. *)
Definition rank (s : Order.Status) : nat :=
  match s with
  | Order.created => 0
  | Order.payment_pending => 1
  | Order.confirmed => 2
  | Order.assigning => 3
  | Order.courier_assigned => 4
  | Order.en_route_to_store => 5
  | Order.at_store => 6
  | Order.picking => 7
  | Order.en_route_to_customer => 8
  | Order.delivered => 9
  | Order.completed => 10
  | Order.cancelled => 10
  | Order.refunded => 10
  end.

(** ** More sample data *)

Module Fixtures.

(** The ledger of [Sample], with no metadata stored yet. *)
Definition books (st : Order.Status) : Tables :=
  {| db := Sample.ledger st; metadata := ∅ |}.

(** The ten transitions from [created] to [completed]. *)
Definition whole_life : list (Z * Order.Status) :=
  [(1, Order.payment_pending); (2, Order.confirmed); (3, Order.assigning);
   (4, Order.courier_assigned); (5, Order.en_route_to_store); (6, Order.at_store);
   (7, Order.picking); (8, Order.en_route_to_customer); (9, Order.delivered);
   (10, Order.completed)].

(** Bob asks to cancel Alice's order. *)
Definition cancel_by_bob : Orders.CancelRequest :=
  {| Orders.cancel_user := "bob"; Orders.orderId := "order-1"; Orders.reason := None |}.

(** Two units of P from a store that does not exist. *)
Definition unknown_store : Orders.CreateRequest :=
  {| Orders.create_user := "alice";
     Orders.items := [Order.mkItem "P" 2 None];
     Orders.storeId := "T";
     Orders.deliveryAddress := Js.JObject [("text"%string, Js.JString "Amir Temur 1")];
     Orders.paymentMethod := "card";
     Orders.idempotency_key := Some "K5"%string;
     Orders.uuidv4 := "7d1f0a52";
     Orders.new_order_id := "order-2" |}.

Definition click (paymentId status transaction : string) : Payments.WebhookRequest :=
  {| Payments.provider := "click";
     Payments.headers := [];
     Payments.webhookData :=
       Js.JObject [("merchant_trans_id"%string, Js.JString paymentId);
                   ("status"%string, Js.JString status);
                   ("click_trans_id"%string, Js.JString transaction)] |}.

(** A payment request for [order-1] by a given user. *)
Definition pay_order_1 (user : string) : PaymentRoutes.CreateRequest :=
  {| PaymentRoutes.create_user := user;
     PaymentRoutes.orderId := "order-1";
     PaymentRoutes.provider := "click";
     PaymentRoutes.amount := None;
     PaymentRoutes.now := 1700000000000;
     PaymentRoutes.random := "k3j9x0q1z";
     PaymentRoutes.new_payment_id := "pay2";
     PaymentRoutes.createdAt := "2023-11-14T22:13:20.000Z" |}.

(** Alice asks for the refund of [pay1]. *)
Definition refund_pay1 : PaymentRoutes.RefundRequest :=
  {| PaymentRoutes.refund_user := "alice";
     PaymentRoutes.refund_paymentId := "pay1";
     PaymentRoutes.reason := "damaged";
     PaymentRoutes.refund_amount := None;
     PaymentRoutes.refund_now := 1700000100000;
     PaymentRoutes.refund_random := "p0o9i8u7y";
     PaymentRoutes.requestedAt := "2023-11-14T22:15:00.000Z" |}.

(** The books with [pay1] captured at time 100 and [order-1] paid. *)
Definition settled : Tables :=
  {| db :=
       set_payments
         {[ "pay1"%string :=
              {| Payment.order_id := "order-1"; Payment.provider := "click";
                 Payment.providerPaymentId := Some "tx-1"%string;
                 Payment.amount := 2000; Payment.status := Payment.captured;
                 Payment.capturedAt := Some 100 |} ]}
         (set_orders
            {[ "order-1"%string :=
                 Order.set_paymentStatus Order.paid (Sample.order_in Order.payment_pending) ]}
            (Sample.ledger Order.payment_pending));
     metadata := ∅ |}.

(** Alice rates [order-1]. *)
Definition five_stars : OrderRoutes.RateRequest :=
  {| OrderRoutes.rate_user := "alice"; OrderRoutes.rate_orderId := "order-1";
     OrderRoutes.rating := 5; OrderRoutes.feedback := Some "on time"%string |}.

End Fixtures.

(* Keep the write-back of the webhook handler folded in goals. *)
Arguments Payments.reconcile : simpl never.

(** * Properties *)

(** ** The order state machine *)

Lemma canTransitionTo_spec (o : Order.t) (X : Order.Status) :
  Order.canTransitionTo o X = true ↔ spec_allowed (Order.status o) X.
Proof.
  unfold Order.canTransitionTo.
  destruct (Order.status o), X; simpl; split; intros H;
    first [ done | constructor | inversion H ].
Qed.

Lemma status_stamp now s o : Order.status (Order.stamp now s o) = Order.status o.
Proof. by destruct o, s. Qed.

Lemma status_set_status s o : Order.status (Order.set_status s o) = s.
Proof. by destruct o. Qed.

(** A payload that does not carry a [status] property leaves the status
    that [transitionTo] has just written. *)
Lemma status_object_assign (data : list Order.Assignment) : ∀ o,
  Forall (λ a, ∀ v, a ≠ Order.assign_status v) data →
  Order.status (Order.object_assign o data) = Order.status o.
Proof.
  unfold Order.object_assign.
  induction data as [| a data IH]; intros o Hall; simpl; [done |].
  apply Forall_cons in Hall as [Ha Hall].
  rewrite IH by done.
  destruct a; simpl; try by destruct o.
  by destruct (Ha v).
Qed.

(** With such a payload an allowed transition still ends in the target
    status. *)
Lemma transitionTo_payload now o X (data : list Order.Assignment) :
  Forall (λ a, ∀ v, a ≠ Order.assign_status v) data →
  spec_allowed (Order.status o) X →
  ∃ o', Order.transitionTo now o X data = Order.Saves o' ∧ Order.status o' = X.
Proof.
  intros Hdata Hallowed. apply canTransitionTo_spec in Hallowed.
  unfold Order.transitionTo. rewrite Hallowed. simpl.
  eexists. split; [reflexivity |].
  by rewrite status_object_assign, status_stamp, status_set_status.
Qed.

(** A payload with a [status] property overrides the target, as
    [Object.assign] runs after the status was written. *)
Example transitionTo_payload_overrides_status :
  Order.status <$>
    match Order.transitionTo 100 (Sample.order_in Order.payment_pending) Order.confirmed
            [Order.assign_status Order.delivered] with
    | Order.Saves o' => Some o'
    | Order.Throws _ => None
    end
  = Some Order.delivered.
Proof. reflexivity. Qed.

(** C1.  For every order and every target state X, [transitionTo]
    throws [InvalidTransition] (from the current status to X) exactly when
    X is not an allowed target of the order's current status in the
    specification's table, and otherwise saves the order with
    [status = X]; the table of the code and the table of the
    specification allow the same pairs, and none out of [completed],
    [cancelled] and [refunded]. *)
Theorem C1_transition_follows_table (now : Z) (o : Order.t) (X : Order.Status) :
  match Order.transitionTo now o X [] with
  | Order.Throws e =>
      e = Order.InvalidTransition (Order.status o) X
      ∧ ¬ spec_allowed (Order.status o) X
  | Order.Saves o' =>
      Order.status o' = X ∧ spec_allowed (Order.status o) X
  end.
Proof.
  unfold Order.transitionTo.
  destruct (Order.canTransitionTo o X) eqn:Hcan; simpl.
  - split.
    + by rewrite status_stamp, status_set_status.
    + by apply canTransitionTo_spec.
  - split; [done |].
    intros H. apply canTransitionTo_spec in H. congruence.
Qed.

(** ** The stock ledger *)

Lemma reserve_Saves this amount p :
  Product.reserve this amount = Product.Saves p →
  Product.id p = Product.id this ∧ Product.dataValues p = Product.dataValues this.
Proof.
  unfold Product.reserve. case_match; [done |]. by intros [= <-].
Qed.

(** [reserve] succeeds whenever [canReserve] holds, and never changes
    what [getAvailableQuantity] reads. *)
Lemma reserve_available this amount :
  Product.canReserve this amount = true →
  ∃ p, Product.reserve this amount = Product.Saves p
       ∧ Product.getAvailableQuantity p = Product.getAvailableQuantity this.
Proof.
  intros Hcan. unfold Product.reserve. rewrite Hcan. simpl. eauto.
Qed.

Lemma releaseReservation_available this amount :
  Product.getAvailableQuantity (Product.releaseReservation this amount)
  = Product.getAvailableQuantity this.
Proof. done. Qed.

Lemma save_unchanged p (tbl : gmap string Product.Row) :
  loaded_from tbl p → Product.save p tbl = tbl.
Proof. apply insert_id. Qed.

Lemma findAll_loaded tbl clause products :
  Product.findAll tbl clause = Some products → Forall (loaded_from tbl) products.
Proof.
  unfold Product.findAll. case_match; [| done]. intros [= <-].
  apply Forall_fmap, Forall_forall.
  intros [k r] Hin. apply list_elem_of_filter in Hin as [_ Hin].
  by apply elem_of_map_to_list in Hin.
Qed.

(** The product query of the create route throws, whatever the table
    and the request: its clause names [storeId]. *)
Lemma findAll_productsWhere tbl req :
  Product.findAll tbl (Orders.productsWhere req) = None.
Proof. done. Qed.

Lemma find_elem_of products i p :
  Product.find products i = Some p → p ∈ products.
Proof.
  unfold Product.find. intros H. apply List.find_some in H as [H _].
  by apply list_elem_of_In.
Qed.

Lemma replace_loaded tbl p products :
  loaded_from tbl p → Forall (loaded_from tbl) products →
  Forall (loaded_from tbl) (Product.replace p products).
Proof.
  intros Hp Hall. unfold Product.replace. apply Forall_fmap.
  eapply Forall_impl; [exact Hall |]. intros q Hq. simpl. by case_match.
Qed.

(** The second loop of the create route hands back the table it was
    given, whether it completes or throws. *)
Lemma applyReservations_table items : ∀ products tbl,
  Forall (loaded_from tbl) products →
  match Orders.applyReservations products tbl items with
  | Orders.Reserved _ tbl' => tbl' = tbl
  | Orders.Threw tbl' => tbl' = tbl
  end.
Proof.
  induction items as [| item rest IH]; intros products tbl Hall; simpl; [done |].
  destruct (Product.find products (Order.productId item)) as [product |] eqn:Hfind;
    [| done].
  destruct (Product.reserve product (Order.qty item)) as [e | p] eqn:Hres; [done |].
  apply reserve_Saves in Hres as [Hid Hdv].
  assert (loaded_from tbl p) as Hp.
  { unfold loaded_from. rewrite Hid, Hdv.
    apply find_elem_of in Hfind. by eapply Forall_forall in Hall. }
  rewrite (save_unchanged p tbl Hp).
  apply IH. by apply replace_loaded.
Qed.

(** No run of the create route writes anything. *)
Lemma createOrder_writes_nothing db req : (Orders.createOrder db req).1 = db.
Proof.
  unfold Orders.createOrder, Orders.internal_error. cbv zeta.
  rewrite findAll_productsWhere. by repeat case_match.
Qed.

Lemma releaseStock_table items : ∀ tbl, Orders.releaseStock tbl items = tbl.
Proof.
  induction items as [| item rest IH]; intros tbl; simpl; [done |].
  unfold Product.findByPk.
  destruct (tbl !! Order.productId item) as [r |] eqn:Hr; simpl; [| apply IH].
  rewrite save_unchanged; [apply IH | done].
Qed.

(** Nor does a run of the cancel route. *)
Lemma cancelOrder_products now db req :
  products (Orders.cancelOrder now db req).1 = products db.
Proof.
  unfold Orders.cancelOrder. repeat case_match; simpl; try done.
  apply releaseStock_table.
Qed.

(** C3.  The code at the failing input: a product with quantity 5 and
    nothing reserved, of which 2 units are reserved and then released.
    [reserve] accepts the call, but the count it increments is the
    undeclared property [reservedQuantity] (which becomes [NaN]); the
    attribute [reserved_quantity], from which the available quantity is
    computed, stays 0, the available quantity stays 5, and saving the
    instance leaves the row as it was. *)
Theorem C3_reserve_leaves_reserved_quantity :
  let this := Product.load "P" Sample.apples in
  ∃ p,
    Product.reserve this 2 = Product.Saves p
    ∧ Product.reserved_quantity (Product.dataValues p) = 0
    ∧ Product.getAvailableQuantity p = 5
    ∧ Product.reservedQuantity p = Js.NaN
    ∧ Product.save p (products Sample.shop) = products Sample.shop
    ∧ Product.reservedQuantity (Product.releaseReservation p 2) = Js.NaN
    ∧ Product.reserved_quantity (Product.dataValues (Product.releaseReservation p 2)) = 0.
Proof. eexists. by repeat split. Qed.

(** C4.  The code on the scenario of the claim.  The request for 2
    units of P (quantity 5, reserved 0) is answered 500 "Failed to create
    order": no order is stored, and P is as available as before, 5 where
    the claim has 3.  On a ledger that holds such an order, with its two
    units in the reserved column of P (available 3), the first
    cancellation is accepted and the order is [cancelled], but the
    available quantity of P stays 3, where the claim has 5; the second
    cancellation is rejected. *)
Theorem C4_create_then_cancel_twice :
  let created := Orders.createOrder Sample.shop Sample.two_units in
  let first :=
    Orders.cancelOrder 100 (Sample.held Order.payment_pending) Sample.cancel_order_1 in
  let second := Orders.cancelOrder 200 first.1 Sample.cancel_order_1 in
  available Sample.shop "P" = Some 5
  ∧ created = (Sample.shop, mkResponse 500 (Failure "Failed to create order"))
  ∧ available (Sample.held Order.payment_pending) "P" = Some 3
  ∧ first.2 = mkResponse 200 (Message "Order cancelled")
  ∧ Order.status <$> orders first.1 !! "order-1" = Some Order.cancelled
  ∧ available first.1 "P" = Some 3
  ∧ second = (first.1, mkResponse 400 (Failure "Order cannot be cancelled")).
Proof. by vm_compute. Qed.

(** C10.  The code at the failing input, and next to it a request that
    the stock can serve.  The order for 2 units of P and 3 of Q, of which
    there is 1, is not refused with an error naming a product: it is
    answered 500 "Failed to create order".  The order for 2 units of P
    and 1 of Q gets the same answer: no order is stored and no line's
    reservation is applied.  Both leave the database as it was, both
    products fully available. *)
Theorem C10_create_order_reserves_nothing :
  Orders.createOrder Sample.shop Sample.too_many_pears
    = (Sample.shop, mkResponse 500 (Failure "Failed to create order"))
  ∧ Orders.createOrder Sample.shop Sample.two_lines
    = (Sample.shop, mkResponse 500 (Failure "Failed to create order"))
  ∧ available Sample.shop "P" = Some 5
  ∧ available Sample.shop "Q" = Some 1.
Proof. by vm_compute. Qed.

(** ** The idempotency key *)








(** ** Cancellation by the customer *)

(** C5, as the code has it.  For an order of the caller, the cancel
    route succeeds, and leaves the order [cancelled], exactly when the
    order's status is [created], [payment_pending], [confirmed] or
    [assigning]; in every other status, the delivery phases from
    [courier_assigned] to [delivered] as well as the terminal ones, it
    answers 400 "Order cannot be cancelled" and changes nothing. *)
Theorem C5_customer_cancel_window now db req o :
  orders db !! Orders.orderId req = Some o →
  Order.user_id o = Orders.cancel_user req →
  match Order.status o with
  | Order.created | Order.payment_pending | Order.confirmed | Order.assigning =>
      ∃ db',
        Orders.cancelOrder now db req = (db', mkResponse 200 (Message "Order cancelled"))
        ∧ Order.status <$> orders db' !! Orders.orderId req = Some Order.cancelled
  | _ =>
      Orders.cancelOrder now db req
      = (db, mkResponse 400 (Failure "Order cannot be cancelled"))
  end.
Proof.
  intros Ho Huser. unfold Orders.cancelOrder, Order.findByPk.
  rewrite Ho, Huser, String.eqb_refl. simpl.
  destruct (Order.status o) eqn:Hst; simpl; try done.
  all: eexists; split; [reflexivity |].
  all: unfold Order.save; simpl; rewrite lookup_insert_eq; by destruct o.
Qed.

(** Alice cancels her order while it awaits payment. *)
Lemma C5_customer_cancel_window_witness :
  ∃ db',
    Orders.cancelOrder 100 (Sample.ledger Order.payment_pending) Sample.cancel_order_1
    = (db', mkResponse 200 (Message "Order cancelled"))
    ∧ Order.status <$> orders db' !! "order-1" = Some Order.cancelled.
Proof.
  apply (C5_customer_cancel_window 100 (Sample.ledger Order.payment_pending)
           Sample.cancel_order_1 (Sample.order_in Order.payment_pending));
    reflexivity.
Defined.

(** C5 as stated fails: an order in [courier_assigned], which is not
    terminal, cannot be cancelled by its customer; the request is answered
    400 and the order keeps its status. *)
Lemma C5_courier_assigned_not_cancellable :
  Orders.cancelOrder 100 (Sample.ledger Order.courier_assigned) Sample.cancel_order_1
  = (Sample.ledger Order.courier_assigned,
     mkResponse 400 (Failure "Order cannot be cancelled"))
  ∧ Order.canTransitionTo (Sample.order_in Order.courier_assigned) Order.cancelled = true.
Proof. by vm_compute. Qed.

(** ** The payment webhook *)

Lemma truthy_string pk : pk ≠ ""%string → Js.truthy (Js.JString pk) = true.
Proof. intros Hne. simpl. by destruct (String.eqb_spec pk ""). Qed.

(** What the handler answers when the body of [if (payment)] has run. *)
Lemma webhook_matched now db req pk p st tx :
  matched db req = Some (pk, p, st, tx) →
  Payments.webhook now db req
  = match Payments.reconcile now db pk p st tx with
    | Payments.Done db' => (db', mkResponse 200 Success)
    | Payments.Thrown db' =>
        (db', mkResponse 500 (WebhookError "Webhook processing failed"))
    end.
Proof.
  unfold Payments.webhook, matched.
  destruct (Payments.extract _ _) as [| | paymentId st' tx']; [done | done |].
  destruct (Js.truthy paymentId); [| done].
  destruct (Payments.findByPk _ _) as [[pk' p'] |]; [| done].
  by intros [= -> -> -> ->].
Qed.

(** Without a matched payment the handler writes nothing, and its
    answer depends neither on the time nor on the database. *)
Lemma webhook_unmatched t1 t2 db db' req :
  matched db req = None →
  matched db' req = None →
  (Payments.webhook t1 db req).1 = db
  ∧ (Payments.webhook t2 db' req).2 = (Payments.webhook t1 db req).2.
Proof.
  unfold Payments.webhook, matched.
  destruct (Payments.extract _ _) as [| | paymentId st tx]; [done | done |].
  destruct (Js.truthy paymentId); [| done].
  destruct (Payments.findByPk (payments db) _) as [[pk p] |]; [done |].
  by destruct (Payments.findByPk (payments db') _) as [[pk p] |].
Qed.

Lemma matched_known db req pk st tx p :
  Payments.extract (Payments.provider req) (Payments.webhookData req)
    = Payments.Fields (Js.JString pk) st tx →
  pk ≠ ""%string →
  payments db !! pk = Some p →
  matched db req = Some (pk, p, st, tx).
Proof.
  intros Hex Hne Hp. unfold matched.
  rewrite Hex, (truthy_string _ Hne). simpl. by rewrite Hp.
Qed.

Lemma matched_insert db req pk p st tx p' :
  matched db req = Some (pk, p, st, tx) →
  matched (set_payments (<[pk := p']> (payments db)) db) req = Some (pk, p', st, tx).
Proof.
  unfold matched.
  destruct (Payments.extract _ _) as [| | paymentId st' tx']; [done | done |].
  destruct (Js.truthy paymentId); [| done].
  destruct paymentId as [| | | | s |]; try done.
  unfold Payments.findByPk. intros H.
  apply fmap_Some in H as ([pk' p''] & H & [= -> -> -> ->]).
  apply fmap_Some in H as (p3 & _ & [= <- <-]).
  simpl. by rewrite lookup_insert_eq.
Qed.

(** A capture never gets as far as [payment.save()]: the order is
    looked up by [payment.orderId], which no payment has. *)
Lemma reconcile_captured now db pk p tx :
  Payments.reconcile now db pk p Payment.captured tx = Payments.Thrown db.
Proof. done. Qed.

Lemma reconcile_other now db pk p st tx :
  st ≠ Payment.captured →
  Payments.reconcile now db pk p st tx
  = Payments.save db pk (Payment.set_status st p) tx.
Proof. intros Hst. unfold Payments.reconcile. by rewrite bool_decide_eq_false_2. Qed.

(** A capture notification for a known payment is answered 500 and
    writes nothing. *)
Lemma webhook_capture now db req pk tx p :
  Payments.extract (Payments.provider req) (Payments.webhookData req)
    = Payments.Fields (Js.JString pk) Payment.captured tx →
  pk ≠ ""%string →
  payments db !! pk = Some p →
  Payments.webhook now db req
  = (db, mkResponse 500 (WebhookError "Webhook processing failed")).
Proof.
  intros Hex Hne Hp.
  by rewrite (webhook_matched _ _ _ _ _ _ _ (matched_known _ _ _ _ _ _ Hex Hne Hp)),
    reconcile_captured.
Qed.

(** No webhook writes to [orders]. *)
Lemma webhook_orders now db req : orders (Payments.webhook now db req).1 = orders db.
Proof.
  destruct (matched db req) as [[[[pk p] st] tx] |] eqn:Hm.
  - rewrite (webhook_matched _ _ _ _ _ _ _ Hm).
    destruct (decide (st = Payment.captured)) as [-> | Hst];
      [by rewrite reconcile_captured |].
    rewrite reconcile_other by done. unfold Payments.save.
    by destruct (Payment.assign_providerPaymentId _ _).
  - by rewrite (proj1 (webhook_unmatched now now db db req Hm Hm)).
Qed.

(** Assigning the same transaction id and status again changes
    nothing. *)
Lemma assign_again st tx p p' :
  Payment.assign_providerPaymentId tx (Payment.set_status st p) = Some p' →
  Payment.assign_providerPaymentId tx (Payment.set_status st p') = Some p'.
Proof. destruct tx; simpl; try done; intros [= <-]; by destruct p. Qed.

(** C6.  The code at the failing input.  The response and the database
    the handler leaves do not depend on the headers of the request, the
    only place a signature could travel in; and the Click notification
    that [pay1] has failed, sent without any header, is reconciled: the
    pending payment becomes [failed], and the answer is the 200
    acknowledgement. *)
Theorem C6_unsigned_webhook_is_reconciled :
  (∀ now db provider h1 h2 data,
     Payments.webhook now db (Payments.mkWebhookRequest provider h1 data)
     = Payments.webhook now db (Payments.mkWebhookRequest provider h2 data))
  ∧ Payments.headers Sample.click_failure = []
  ∧ Payment.status <$> payments (Sample.ledger Order.payment_pending) !! "pay1"
    = Some Payment.pending
  ∧ (Payments.webhook 100 (Sample.ledger Order.payment_pending) Sample.click_failure).2
    = mkResponse 200 Success
  ∧ Payment.status <$>
      payments (Payments.webhook 100 (Sample.ledger Order.payment_pending)
                  Sample.click_failure).1 !! "pay1"
    = Some Payment.failed.
Proof. split; [done | by vm_compute]. Qed.

(** C7.  The code on the webhooks of the claim.  For every webhook that
    reports a settled payment and matches a known payment, the handler
    answers 500 "Webhook processing failed" and leaves the database as it
    was: the payment is not marked [captured], no capture time is
    stamped, the owning order is not marked [paid] and is not moved to
    [confirmed]. *)
Theorem C7_capture_is_not_reconciled now db req pk tx p :
  Payments.extract (Payments.provider req) (Payments.webhookData req)
    = Payments.Fields (Js.JString pk) Payment.captured tx →
  pk ≠ ""%string →
  payments db !! pk = Some p →
  Payments.webhook now db req
  = (db, mkResponse 500 (WebhookError "Webhook processing failed"))
  ∧ payments (Payments.webhook now db req).1 !! pk = Some p
  ∧ orders (Payments.webhook now db req).1 !! Payment.order_id p
    = orders db !! Payment.order_id p.
Proof.
  intros Hex Hne Hp. by rewrite (webhook_capture _ _ _ _ _ _ Hex Hne Hp).
Qed.

(** Click settles [pay1] while the order awaits payment: the payment
    stays [pending] without a capture time, the order stays as it was. *)
Lemma C7_capture_is_not_reconciled_witness :
  let db := Sample.ledger Order.payment_pending in
  Payments.webhook 100 db Sample.click_success
  = (db, mkResponse 500 (WebhookError "Webhook processing failed"))
  ∧ payments (Payments.webhook 100 db Sample.click_success).1 !! "pay1"
    = Some Sample.pay1
  ∧ orders (Payments.webhook 100 db Sample.click_success).1 !! "order-1"
    = orders db !! "order-1".
Proof.
  apply (C7_capture_is_not_reconciled 100 (Sample.ledger Order.payment_pending)
           Sample.click_success "pay1" (Js.JString "tx-1") Sample.pay1);
    [reflexivity | discriminate | reflexivity].
Defined.

(** C8.  For every webhook, delivered at [t1] and again at [t2]: the
    second delivery leaves the database exactly as the first delivery
    left it, payments and orders alike, and is answered as the first
    was. *)
Theorem C8_second_delivery_changes_nothing t1 t2 db req :
  Payments.webhook t2 (Payments.webhook t1 db req).1 req
  = ((Payments.webhook t1 db req).1, (Payments.webhook t1 db req).2).
Proof.
  destruct (matched db req) as [[[[pk p] st] tx] |] eqn:Hm.
  - rewrite (webhook_matched t1 _ _ _ _ _ _ Hm).
    destruct (decide (st = Payment.captured)) as [-> | Hst].
    { rewrite reconcile_captured. cbn [fst snd].
      by rewrite (webhook_matched t2 _ _ _ _ _ _ Hm), reconcile_captured. }
    rewrite reconcile_other by done. unfold Payments.save.
    destruct (Payment.assign_providerPaymentId tx (Payment.set_status st p))
      as [p' |] eqn:Hassign; cbn [fst snd].
    + rewrite (webhook_matched t2 _ _ _ _ _ _ (matched_insert _ _ _ _ _ _ p' Hm)).
      rewrite reconcile_other by done. unfold Payments.save.
      rewrite (assign_again _ _ _ _ Hassign).
      f_equal. destruct db. unfold set_payments. simpl. f_equal. apply insert_insert_eq.
    + rewrite (webhook_matched t2 _ _ _ _ _ _ Hm), reconcile_other by done.
      unfold Payments.save. by rewrite Hassign.
  - destruct (webhook_unmatched t1 t2 db db req Hm Hm) as [Hdb Hresp].
    destruct (webhook_unmatched t2 t2 db db req Hm Hm) as [Hdb2 _].
    rewrite Hdb. by apply injective_projections.
Qed.

(** C9.  When a webhook reports the settlement of a known payment whose
    order is already [cancelled], the order is left as it was, [status]
    and [paymentStatus] included; the payment is not marked [captured],
    and the webhook is rejected with 500 "Webhook processing failed",
    the answer of the branch that logs the error. *)
Theorem C9_capture_on_cancelled_order now db req pk tx p o :
  Payments.extract (Payments.provider req) (Payments.webhookData req)
    = Payments.Fields (Js.JString pk) Payment.captured tx →
  pk ≠ ""%string →
  payments db !! pk = Some p →
  orders db !! Payment.order_id p = Some o →
  Order.status o = Order.cancelled →
  let db' := (Payments.webhook now db req).1 in
  orders db' !! Payment.order_id p = Some o
  ∧ Order.status <$> orders db' !! Payment.order_id p = Some Order.cancelled
  ∧ Order.paymentStatus <$> orders db' !! Payment.order_id p
    = Some (Order.paymentStatus o)
  ∧ orders db' = orders db
  ∧ payments db' !! pk = Some p
  ∧ (Payments.webhook now db req).2
    = mkResponse 500 (WebhookError "Webhook processing failed").
Proof.
  intros Hex Hne Hp Ho Hst db'. subst db'.
  rewrite (webhook_capture _ _ _ _ _ _ Hex Hne Hp). cbn [fst snd].
  rewrite Ho. simpl. by rewrite Hst.
Qed.

(** Click settles [pay1] after Alice's order was cancelled. *)
Lemma C9_capture_on_cancelled_order_witness :
  let db := Sample.ledger Order.cancelled in
  let db' := (Payments.webhook 100 db Sample.click_success).1 in
  orders db' !! "order-1" = Some (Sample.order_in Order.cancelled)
  ∧ Order.status <$> orders db' !! "order-1" = Some Order.cancelled
  ∧ Order.paymentStatus <$> orders db' !! "order-1" = Some Order.pending
  ∧ orders db' = orders db
  ∧ payments db' !! "pay1" = Some Sample.pay1
  ∧ (Payments.webhook 100 db Sample.click_success).2
    = mkResponse 500 (WebhookError "Webhook processing failed").
Proof.
  apply (C9_capture_on_cancelled_order 100 (Sample.ledger Order.cancelled)
           Sample.click_success "pay1" (Js.JString "tx-1") Sample.pay1
           (Sample.order_in Order.cancelled));
    [reflexivity | discriminate | reflexivity | reflexivity | reflexivity].
Defined.

(** ** More on the state machine *)

Lemma transitionTo_Saves now o X o' :
  Order.transitionTo now o X [] = Order.Saves o' →
  Order.canTransitionTo o X = true ∧ o' = Order.stamp now X (Order.set_status X o).
Proof.
  unfold Order.transitionTo.
  destruct (Order.canTransitionTo o X); simpl; [| done].
  by intros [= <-].
Qed.

Lemma transitionTo_rank now o X o' :
  Order.transitionTo now o X [] = Order.Saves o' →
  (rank (Order.status o) < rank (Order.status o'))%nat.
Proof.
  intros H. apply transitionTo_Saves in H as [Hcan ->].
  rewrite status_stamp, status_set_status.
  apply canTransitionTo_spec in Hcan. destruct Hcan; simpl; lia.
Qed.

Lemma transitions_rank steps : ∀ o o',
  transitions o steps = Some o' →
  (rank (Order.status o) + length steps ≤ rank (Order.status o'))%nat.
Proof.
  induction steps as [| [now X] steps IH]; intros o o'; simpl.
  - intros [= <-]. lia.
  - destruct (Order.transitionTo now o X []) as [e | o1] eqn:Hstep; [done |].
    intros Hrest. apply IH in Hrest. apply transitionTo_rank in Hstep. lia.
Qed.

Lemma rank_bound s : (rank s ≤ 10)%nat.
Proof. destruct s; simpl; lia. Qed.

(** X1.  However an order is driven through [transitionTo], it never
    comes back to a status it has left, and no order goes through more
    than ten transitions. *)
Theorem transitions_never_return o steps o' :
  transitions o steps = Some o' →
  (length steps ≤ 10)%nat ∧ (steps ≠ [] → Order.status o' ≠ Order.status o).
Proof.
  intros H. apply transitions_rank in H.
  pose proof (rank_bound (Order.status o')) as Hb.
  split; [lia |].
  intros Hne Heq. rewrite Heq in H.
  destruct steps; [done | simpl in H; lia].
Qed.

(** X2.  [transitionTo] refuses [created] and [refunded] as targets:
    for every order, whatever its status, and every payload, both calls
    throw the invalid-transition error, and nothing is saved. *)
Theorem created_and_refunded_are_refused_as_targets now (o : Order.t)
    (data : list Order.Assignment) :
  Order.transitionTo now o Order.created data
  = Order.Throws (Order.InvalidTransition (Order.status o) Order.created)
  ∧ Order.transitionTo now o Order.refunded data
    = Order.Throws (Order.InvalidTransition (Order.status o) Order.refunded).
Proof. unfold Order.transitionTo, Order.canTransitionTo. by destruct (Order.status o). Qed.

(** X3.  A successful transition writes the status and the timestamp
    of its target, and nothing else: [confirmed] stamps [confirmedAt],
    [courier_assigned] stamps [assignedAt], [en_route_to_customer]
    stamps [pickedUpAt], [delivered] stamps [deliveredAt] and
    [actualDeliveryTime], [cancelled] stamps [cancelledAt]; every other
    column keeps its value, the payment status and the cancellation
    fields among them. *)
Theorem transitionTo_writes_status_and_stamp now o X o' :
  Order.transitionTo now o X [] = Order.Saves o' →
  o' = {| Order.user_id := Order.user_id o;
          Order.store_id := Order.store_id o;
          Order.totalAmount := Order.totalAmount o;
          Order.paymentMethod := Order.paymentMethod o;
          Order.status := X;
          Order.idempotencyKey := Order.idempotencyKey o;
          Order.items := Order.items o;
          Order.paymentStatus := Order.paymentStatus o;
          Order.confirmedAt :=
            if decide (X = Order.confirmed) then Some now else Order.confirmedAt o;
          Order.assignedAt :=
            if decide (X = Order.courier_assigned) then Some now else Order.assignedAt o;
          Order.pickedUpAt :=
            if decide (X = Order.en_route_to_customer) then Some now else Order.pickedUpAt o;
          Order.deliveredAt :=
            if decide (X = Order.delivered) then Some now else Order.deliveredAt o;
          Order.actualDeliveryTime :=
            if decide (X = Order.delivered) then Some now else Order.actualDeliveryTime o;
          Order.cancelledAt :=
            if decide (X = Order.cancelled) then Some now else Order.cancelledAt o;
          Order.cancellationReason := Order.cancellationReason o;
          Order.cancelledBy := Order.cancelledBy o |}.
Proof.
  intros H. apply transitionTo_Saves in H as [_ ->].
  by destruct o, X.
Qed.

(** ** More on the cancel route *)

(** X4.  What the cancel route writes is a transition of the state
    machine: the order it saves is the one [transitionTo] saves for the
    target [cancelled] with the payload [{ cancelledBy: 'customer',
    cancellationReason: reason }]. *)
Theorem cancelOrder_is_a_transition now db req o db' :
  orders db !! Orders.orderId req = Some o →
  Orders.cancelOrder now db req = (db', mkResponse 200 (Message "Order cancelled")) →
  ∃ o',
    Order.transitionTo now o Order.cancelled
      [Order.assign_cancelledBy (Some Order.customer);
       Order.assign_cancellationReason (Orders.reason req)]
    = Order.Saves o'
    ∧ orders db' !! Orders.orderId req = Some o'.
Proof.
  intros Ho. unfold Orders.cancelOrder, Order.findByPk. rewrite Ho.
  destruct (negb (Order.user_id o =? Orders.cancel_user req)%string); [done |].
  destruct (Order.status o) eqn:Hst; simpl; try done.
  all: intros [= <-]; eexists; split;
    [ unfold Order.transitionTo, Order.canTransitionTo; rewrite Hst; reflexivity
    | unfold Order.save; simpl; by rewrite lookup_insert_eq ].
Qed.

(** X5.  A customer cannot cancel the order of another customer: the
    route answers 404 "Order not found" and writes nothing, whatever the
    status of the order. *)
Theorem cancelOrder_refuses_other_customers now db req o :
  orders db !! Orders.orderId req = Some o →
  Order.user_id o ≠ Orders.cancel_user req →
  Orders.cancelOrder now db req = (db, mkResponse 404 (Failure "Order not found")).
Proof.
  intros Ho Hne. unfold Orders.cancelOrder, Order.findByPk. rewrite Ho.
  by destruct (String.eqb_spec (Order.user_id o) (Orders.cancel_user req)).
Qed.

(** X6.  The cancel route writes to one order at most: every other
    order, every payment and every store is left as it was. *)
Theorem cancelOrder_touches_one_order now db req oid :
  oid ≠ Orders.orderId req →
  orders (Orders.cancelOrder now db req).1 !! oid = orders db !! oid
  ∧ payments (Orders.cancelOrder now db req).1 = payments db
  ∧ stores (Orders.cancelOrder now db req).1 = stores db.
Proof.
  intros Hne. unfold Orders.cancelOrder.
  repeat case_match; simpl; try done.
  unfold Order.save. by rewrite lookup_insert_ne.
Qed.

(** ** More on the create route *)

(** X7.  A valid request with a key that no order holds, for a store
    that is open, is answered 500 "Failed to create order", whatever its
    lines and whatever the stock: no order is stored and nothing is
    reserved. *)
Theorem createOrder_fails_past_store_check db req store :
  Orders.validationResult req = true →
  Order.findOne (orders db) (Orders.idempotencyKey req) = None →
  stores db !! Orders.storeId req = Some store →
  Store.status store = Store.open →
  Orders.createOrder db req = (db, mkResponse 500 (Failure "Failed to create order")).
Proof.
  intros Hvalid Hkey Hstore Hopen. unfold Orders.createOrder, Orders.internal_error.
  cbv zeta. by rewrite Hvalid, Hkey, Hstore, Hopen, findAll_productsWhere.
Qed.

(** X28.  A create request that is answered 400 or 422 writes
    nothing, neither an order nor a reservation. *)
Theorem createOrder_refusal_writes_nothing db req :
  code (Orders.createOrder db req).2 = 400 ∨ code (Orders.createOrder db req).2 = 422 →
  (Orders.createOrder db req).1 = db.
Proof. intros _. apply createOrder_writes_nothing. Qed.

(** ** More on the payment webhook *)

(** X10.  A notification naming a payment that does not exist is
    acknowledged with 200 and changes nothing. *)
Theorem webhook_unknown_payment now db req pk st tx :
  Payments.extract (Payments.provider req) (Payments.webhookData req)
    = Payments.Fields (Js.JString pk) st tx →
  payments db !! pk = None →
  Payments.webhook now db req = (db, mkResponse 200 Success).
Proof.
  intros Hex Hnone. unfold Payments.webhook. rewrite Hex.
  destruct (Js.truthy (Js.JString pk)); [| done].
  simpl. by rewrite Hnone.
Qed.

(** X11.  A notification for a provider other than click, payme, uzum
    and stripe is acknowledged with 200 and changes nothing, whatever its
    body. *)
Theorem webhook_unknown_provider now db req :
  Payments.provider req ∉ ["click"; "payme"; "uzum"; "stripe"]%string →
  Payments.webhook now db req = (db, mkResponse 200 Success).
Proof.
  intros Hnot. unfold Payments.webhook, Payments.extract.
  repeat match goal with
  | |- context [String.eqb (Payments.provider req) ?s] =>
      destruct (String.eqb_spec (Payments.provider req) s) as [Heq | _];
      [ exfalso; apply Hnot; rewrite Heq; set_solver |]
  end.
  done.
Qed.

(** X12.  A notification of a failed settlement that carries a
    transaction id, for a known payment, sets the payment's status to
    [failed], leaves its order reference, provider, amount and capture
    time as they were, changes no other row of the database, and is
    acknowledged with 200. *)
Theorem webhook_failure now db req pk tx p :
  Payments.extract (Payments.provider req) (Payments.webhookData req)
    = Payments.Fields (Js.JString pk) Payment.failed (Js.JString tx) →
  pk ≠ ""%string →
  payments db !! pk = Some p →
  ∃ p',
    Payments.webhook now db req
    = (set_payments (<[pk := p']> (payments db)) db, mkResponse 200 Success)
    ∧ Payment.status p' = Payment.failed
    ∧ Payment.order_id p' = Payment.order_id p
    ∧ Payment.provider p' = Payment.provider p
    ∧ Payment.amount p' = Payment.amount p
    ∧ Payment.capturedAt p' = Payment.capturedAt p.
Proof.
  intros Hex Hne Hp.
  rewrite (webhook_matched _ _ _ _ _ _ _ (matched_known _ _ _ _ _ _ Hex Hne Hp)).
  rewrite reconcile_other by done. unfold Payments.save. simpl.
  eexists. split; [reflexivity |]. by destruct p.
Qed.

(** X13.  Whatever the notification, the webhook handler does to an
    order one of two things: nothing, or setting its [paymentStatus] to
    [paid]; it adds no order and removes none. *)
Theorem webhook_only_marks_paid now db req oid :
  orders (Payments.webhook now db req).1 !! oid = orders db !! oid
  ∨ orders (Payments.webhook now db req).1 !! oid
    = Order.set_paymentStatus Order.paid <$> orders db !! oid.
Proof. left. by rewrite webhook_orders. Qed.

(** X15.  A notification without a body, for any of the four
    providers, is answered 500 "Webhook processing failed" and changes
    nothing. *)
Theorem webhook_without_body now db req :
  Payments.provider req ∈ ["click"; "payme"; "uzum"; "stripe"]%string →
  Payments.webhookData req = Js.JUndefined ∨ Payments.webhookData req = Js.JNull →
  Payments.webhook now db req
  = (db, mkResponse 500 (WebhookError "Webhook processing failed")).
Proof.
  intros Hin Hbody. unfold Payments.webhook.
  assert (Payments.extract (Payments.provider req) (Payments.webhookData req)
          = Payments.TypeError) as ->; [| done].
  repeat (apply elem_of_cons in Hin as [-> | Hin]);
    [ destruct Hbody as [-> | ->]; reflexivity .. | by apply elem_of_nil in Hin ].
Qed.

(** ** Creating, reading and refunding a payment *)

Lemma findOwned_Some (tbl : gmap string Order.t) orderId user o :
  OrderRoutes.findOwned tbl orderId user = Some o ↔
  tbl !! orderId = Some o ∧ Order.user_id o = user.
Proof.
  unfold OrderRoutes.findOwned.
  destruct (tbl !! orderId) as [o' |]; [| by split; [| intros [? _]]].
  destruct (String.eqb_spec (Order.user_id o') user) as [Heq | Hne]; split.
  - by intros [= <-].
  - by intros [[= <-] _].
  - done.
  - intros [[= <-] Hu]. by destruct Hne.
Qed.

(** X16.  A payment request that is refused, for whatever reason,
    writes nothing. *)
Theorem createPayment_refused f t req t' code error :
  PaymentRoutes.createPayment f t req = (t', Refusal code error) → t' = t.
Proof.
  unfold PaymentRoutes.createPayment.
  repeat case_match; by intros [= <- <- <-].
Qed.

(** X17.  A valid payment request for an order of the caller that is
    not yet paid is answered 500 "Failed to create payment", whatever
    the provider and the amount: no payment is stored. *)
Theorem createPayment_fails_on_insert f t req order :
  PaymentRoutes.createValidation req = true →
  orders (db t) !! PaymentRoutes.orderId req = Some order →
  Order.user_id order = PaymentRoutes.create_user req →
  Order.paymentStatus order ≠ Order.paid →
  PaymentRoutes.createPayment f t req = (t, Refusal 500 "Failed to create payment").
Proof.
  intros Hvalid Hrow Huser Hpaid. unfold PaymentRoutes.createPayment.
  rewrite Hvalid, (proj2 (findOwned_Some _ _ _ _) (conj Hrow Huser)). simpl.
  by rewrite bool_decide_eq_false_2.
Qed.

(** X19.  The status of a payment is told to the customer of its order,
    with the id, the total and the status of that order, and to nobody
    else: any other user is answered 404 "Payment not found", as for a
    payment that does not exist. *)
Theorem getPaymentStatus_owner_only t user pk p o :
  payments (db t) !! pk = Some p →
  orders (db t) !! Payment.order_id p = Some o →
  PaymentRoutes.getPaymentStatus t user pk
  = if decide (Order.user_id o = user)
    then Data (p, {| PaymentRoutes.summary_id := Payment.order_id p;
                     PaymentRoutes.summary_totalAmount := Order.totalAmount o;
                     PaymentRoutes.summary_status := Order.status o |})
    else Refusal 404 "Payment not found".
Proof.
  intros Hp Ho. unfold PaymentRoutes.getPaymentStatus, OrderRoutes.findOwned.
  rewrite Hp, Ho. case_decide as Huser.
  - by rewrite Huser, String.eqb_refl.
  - by destruct (String.eqb_spec (Order.user_id o) user).
Qed.

Lemma refundPayment_Data t req t' d :
  PaymentRoutes.refundPayment t req = (t', Data d) →
  PaymentRoutes.refundValidation req = true
  ∧ ∃ p o,
      payments (db t) !! PaymentRoutes.refund_paymentId req = Some p
      ∧ orders (db t) !! Payment.order_id p = Some o
      ∧ Order.user_id o = PaymentRoutes.refund_user req
      ∧ Payment.status p = Payment.captured
      ∧ PaymentRoutes.refunded_amount d
        = Js.or_number (PaymentRoutes.refund_amount req) (Payment.amount p)
      ∧ PaymentRoutes.refund_status d = "pending"%string
      ∧ db t'
        = set_payments
            (<[PaymentRoutes.refund_paymentId req := Payment.set_status Payment.refunded p]>
               (payments (db t)))
            (db t)
      ∧ metadata t'
        = <[PaymentRoutes.refund_paymentId req :=
              spread_with (default [] (metadata t !! PaymentRoutes.refund_paymentId req))
                "refund"
                (Js.JObject
                   [("id"%string, Js.JString (PaymentRoutes.refundId d));
                    ("amount"%string, Js.JNumber (PaymentRoutes.refunded_amount d));
                    ("reason"%string, Js.JString (PaymentRoutes.reason req));
                    ("requestedAt"%string, Js.JString (PaymentRoutes.requestedAt req));
                    ("requestedBy"%string, Js.JString (PaymentRoutes.refund_user req))])]>
            (metadata t).
Proof.
  unfold PaymentRoutes.refundPayment.
  destruct (PaymentRoutes.refundValidation req); simpl; [| done].
  unfold PaymentRoutes.findOwned.
  destruct (payments (db t) !! PaymentRoutes.refund_paymentId req) as [p |] eqn:Hp;
    [| done].
  destruct (OrderRoutes.findOwned _ _ _) as [o |] eqn:Ho; [| done].
  apply findOwned_Some in Ho as [Ho Huser].
  case_bool_decide as Hst; simpl; [| done].
  intros [= <- <-]. split; [done |]. exists p, o. by repeat split.
Qed.

(** X20.  A refund request that is refused writes nothing. *)
Theorem refundPayment_refused t req t' code error :
  PaymentRoutes.refundPayment t req = (t', Refusal code error) → t' = t.
Proof.
  unfold PaymentRoutes.refundPayment.
  repeat case_match; by intros [= <- <- <-].
Qed.

(** X21.  A valid refund request for a captured payment of an order
    of the caller is accepted: the payment becomes [refunded], the answer
    carries the status "pending" and the requested amount (the amount of
    the payment when none or zero is given, and without any upper bound
    otherwise), and no order is changed. *)
Theorem refundPayment_captured t req p o :
  PaymentRoutes.refundValidation req = true →
  payments (db t) !! PaymentRoutes.refund_paymentId req = Some p →
  orders (db t) !! Payment.order_id p = Some o →
  Order.user_id o = PaymentRoutes.refund_user req →
  Payment.status p = Payment.captured →
  ∃ t' d,
    PaymentRoutes.refundPayment t req = (t', Data d)
    ∧ PaymentRoutes.refunded_amount d
      = Js.or_number (PaymentRoutes.refund_amount req) (Payment.amount p)
    ∧ PaymentRoutes.refund_status d = "pending"%string
    ∧ payments (db t')
      = <[PaymentRoutes.refund_paymentId req := Payment.set_status Payment.refunded p]>
          (payments (db t))
    ∧ orders (db t') = orders (db t).
Proof.
  intros Hvalid Hp Ho Huser Hst.
  unfold PaymentRoutes.refundPayment, PaymentRoutes.findOwned.
  rewrite Hvalid, Hp. simpl.
  rewrite (proj2 (findOwned_Some _ _ _ _) (conj Ho Huser)), Hst. simpl.
  by repeat eexists.
Qed.

(** X22.  A payment is refunded at most once in a row: after an
    accepted refund, a further refund request of the caller for the same
    payment is refused with 400 "Payment cannot be refunded" and writes
    nothing. *)
Theorem refundPayment_once t r1 t1 d r2 :
  PaymentRoutes.refundPayment t r1 = (t1, Data d) →
  PaymentRoutes.refundValidation r2 = true →
  PaymentRoutes.refund_paymentId r2 = PaymentRoutes.refund_paymentId r1 →
  PaymentRoutes.refund_user r2 = PaymentRoutes.refund_user r1 →
  PaymentRoutes.refundPayment t1 r2 = (t1, Refusal 400 "Payment cannot be refunded").
Proof.
  intros Hfirst Hvalid Hpk Huser.
  apply refundPayment_Data in Hfirst
    as (_ & p & o & Hp & Ho & Howner & _ & _ & _ & Hdb & _).
  unfold PaymentRoutes.refundPayment, PaymentRoutes.findOwned.
  rewrite Hvalid, Hpk, Huser, Hdb. simpl. rewrite lookup_insert_eq.
  assert (Payment.order_id (Payment.set_status Payment.refunded p) = Payment.order_id p)
    as -> by (by destruct p).
  rewrite (proj2 (findOwned_Some _ _ _ _) (conj Ho Howner)).
  by destruct p.
Qed.

(** X23.  The webhook does not look at the status a payment has: a
    failure notification delivered after the refund of a payment is
    acknowledged with 200 and turns the payment from [refunded] to
    [failed]. *)
Theorem failure_after_refund t r1 t1 d now w tx :
  PaymentRoutes.refundPayment t r1 = (t1, Data d) →
  Payments.extract (Payments.provider w) (Payments.webhookData w)
    = Payments.Fields (Js.JString (PaymentRoutes.refund_paymentId r1)) Payment.failed
        (Js.JString tx) →
  Payment.status <$> payments (db t1) !! PaymentRoutes.refund_paymentId r1
    = Some Payment.refunded
  ∧ Payment.status <$>
      payments (Payments.webhook now (db t1) w).1 !! PaymentRoutes.refund_paymentId r1
    = Some Payment.failed
  ∧ (Payments.webhook now (db t1) w).2 = mkResponse 200 Success.
Proof.
  intros Hfirst Hex.
  apply refundPayment_Data in Hfirst
    as (Hvalid & p & o & Hp & _ & _ & _ & _ & _ & Hdb & _).
  assert (PaymentRoutes.refund_paymentId r1 ≠ ""%string) as Hne.
  { unfold PaymentRoutes.refundValidation in Hvalid.
    destruct (String.eqb_spec (PaymentRoutes.refund_paymentId r1) ""); [done | done]. }
  assert (payments (db t1) !! PaymentRoutes.refund_paymentId r1
          = Some (Payment.set_status Payment.refunded p)) as Hp1
    by (rewrite Hdb; simpl; apply lookup_insert_eq).
  split; [rewrite Hp1; by destruct p |].
  rewrite (webhook_matched _ _ _ _ _ _ _ (matched_known _ _ _ _ _ _ Hex Hne Hp1)).
  rewrite reconcile_other by done. unfold Payments.save. simpl.
  split; [| done]. rewrite lookup_insert_eq. by destruct p.
Qed.

Lemma assoc_spread_with k fields k0 v :
  Js.assoc k (spread_with fields k0 v)
  = if String.eqb k k0 then v else Js.assoc k fields.
Proof.
  induction fields as [| [k' v'] fields IH]; simpl.
  - by destruct (String.eqb k k0).
  - destruct (String.eqb_spec k' k0) as [-> | Hne]; simpl.
    + by destruct (String.eqb k k0).
    + destruct (String.eqb_spec k k') as [-> | Hne'].
      * by destruct (String.eqb_spec k' k0).
      * apply IH.
Qed.

(** X24.  An accepted refund is recorded under the [refund] property
    of the payment's metadata, with its id, amount, reason, time and
    requester, replacing the record of an earlier refund; every other
    property of the metadata reads as before. *)
Theorem refundPayment_metadata t req t' d k :
  PaymentRoutes.refundPayment t req = (t', Data d) →
  Js.assoc k (default [] (metadata t' !! PaymentRoutes.refund_paymentId req))
  = if String.eqb k "refund"
    then Js.JObject
           [("id"%string, Js.JString (PaymentRoutes.refundId d));
            ("amount"%string, Js.JNumber (PaymentRoutes.refunded_amount d));
            ("reason"%string, Js.JString (PaymentRoutes.reason req));
            ("requestedAt"%string, Js.JString (PaymentRoutes.requestedAt req));
            ("requestedBy"%string, Js.JString (PaymentRoutes.refund_user req))]
    else Js.assoc k (default [] (metadata t !! PaymentRoutes.refund_paymentId req)).
Proof.
  intros H. apply refundPayment_Data in H as (_ & p & o & _ & _ & _ & _ & _ & _ & _ & ->).
  rewrite lookup_insert_eq. simpl. apply assoc_spread_with.
Qed.

(** ** Rating an order *)

(** X27.  The customer who placed an order can rate it, with a rating
    from 1 to 5, exactly when the order is [delivered] or [completed];
    in any other status the route answers 400 "Order must be delivered to
    rate". *)
Theorem rateOrder_after_delivery trim db req o :
  orders db !! OrderRoutes.rate_orderId req = Some o →
  Order.user_id o = OrderRoutes.rate_user req →
  1 ≤ OrderRoutes.rating req ≤ 5 →
  OrderRoutes.rateOrder trim db req
  = match Order.status o with
    | Order.delivered | Order.completed =>
        Data {| OrderRoutes.customerRating := OrderRoutes.rating req;
                OrderRoutes.customerFeedback := trim <$> OrderRoutes.feedback req |}
    | _ => Refusal 400 "Order must be delivered to rate"
    end.
Proof.
  intros Ho Huser Hrange. unfold OrderRoutes.rateOrder.
  rewrite bool_decide_eq_true_2 by done. simpl.
  rewrite (proj2 (findOwned_Some _ _ _ _) (conj Ho Huser)).
  by destruct (Order.status o).
Qed.

(** ** Instances *)

(** An order taken from [created] to [completed]. *)
Lemma transitions_never_return_witness :
  ∃ o',
    transitions (Sample.order_in Order.created) Fixtures.whole_life = Some o'
    ∧ (length Fixtures.whole_life ≤ 10)%nat
    ∧ (Fixtures.whole_life ≠ [] →
       Order.status o' ≠ Order.status (Sample.order_in Order.created)).
Proof.
  eexists. split; [reflexivity |].
  apply (transitions_never_return (Sample.order_in Order.created) Fixtures.whole_life).
  reflexivity.
Defined.

Lemma transitionTo_writes_status_and_stamp_witness :
  ∃ o',
    Order.transitionTo 7 (Sample.order_in Order.en_route_to_customer) Order.delivered []
    = Order.Saves o'
    ∧ Order.deliveredAt o' = Some 7
    ∧ Order.actualDeliveryTime o' = Some 7
    ∧ Order.paymentStatus o' = Order.pending.
Proof.
  eexists. split; [reflexivity |].
  rewrite (transitionTo_writes_status_and_stamp 7
             (Sample.order_in Order.en_route_to_customer) Order.delivered _ eq_refl).
  by repeat split.
Defined.

Lemma cancelOrder_is_a_transition_witness :
  ∃ o',
    Order.transitionTo 100 (Sample.order_in Order.payment_pending) Order.cancelled
      [Order.assign_cancelledBy (Some Order.customer);
       Order.assign_cancellationReason (Some "changed my mind"%string)]
    = Order.Saves o'
    ∧ orders (Orders.cancelOrder 100 (Sample.ledger Order.payment_pending)
                Sample.cancel_order_1).1 !! "order-1"
      = Some o'.
Proof.
  apply (cancelOrder_is_a_transition 100 (Sample.ledger Order.payment_pending)
           Sample.cancel_order_1 (Sample.order_in Order.payment_pending)
           (Orders.cancelOrder 100 (Sample.ledger Order.payment_pending)
              Sample.cancel_order_1).1);
    reflexivity.
Defined.

Lemma cancelOrder_refuses_other_customers_witness :
  Orders.cancelOrder 100 (Sample.ledger Order.payment_pending) Fixtures.cancel_by_bob
  = (Sample.ledger Order.payment_pending, mkResponse 404 (Failure "Order not found")).
Proof.
  apply (cancelOrder_refuses_other_customers 100 (Sample.ledger Order.payment_pending)
           Fixtures.cancel_by_bob (Sample.order_in Order.payment_pending));
    [reflexivity | discriminate].
Defined.

Lemma cancelOrder_touches_one_order_witness :
  let db' := (Orders.cancelOrder 100 (Sample.ledger Order.payment_pending)
                Sample.cancel_order_1).1 in
  orders db' !! "order-2" = orders (Sample.ledger Order.payment_pending) !! "order-2"
  ∧ payments db' = payments (Sample.ledger Order.payment_pending)
  ∧ stores db' = stores (Sample.ledger Order.payment_pending).
Proof.
  apply (cancelOrder_touches_one_order 100 (Sample.ledger Order.payment_pending)
           Sample.cancel_order_1 "order-2").
  discriminate.
Defined.

Lemma createOrder_fails_past_store_check_witness :
  Orders.createOrder Sample.shop Sample.two_lines
  = (Sample.shop, mkResponse 500 (Failure "Failed to create order")).
Proof.
  apply (createOrder_fails_past_store_check Sample.shop Sample.two_lines
           (Store.mk Store.open));
    reflexivity.
Defined.

(** A request for a store that does not exist, answered 400. *)
Lemma createOrder_refusal_writes_nothing_witness :
  code (Orders.createOrder Sample.shop Fixtures.unknown_store).2 = 400
  ∧ (Orders.createOrder Sample.shop Fixtures.unknown_store).1 = Sample.shop.
Proof.
  split; [reflexivity |].
  apply (createOrder_refusal_writes_nothing Sample.shop Fixtures.unknown_store).
  left. reflexivity.
Defined.

Lemma webhook_unknown_payment_witness :
  Payments.webhook 100 (Sample.ledger Order.payment_pending)
    (Fixtures.click "pay9" "success" "tx-9")
  = (Sample.ledger Order.payment_pending, mkResponse 200 Success).
Proof.
  apply (webhook_unknown_payment 100 (Sample.ledger Order.payment_pending)
           (Fixtures.click "pay9" "success" "tx-9") "pay9" Payment.captured
           (Js.JString "tx-9"));
    reflexivity.
Defined.

Lemma webhook_unknown_provider_witness :
  Payments.webhook 100 (Sample.ledger Order.payment_pending)
    (Payments.mkWebhookRequest "paypal" [] (Js.JObject []))
  = (Sample.ledger Order.payment_pending, mkResponse 200 Success).
Proof.
  apply (webhook_unknown_provider 100 (Sample.ledger Order.payment_pending)
           (Payments.mkWebhookRequest "paypal" [] (Js.JObject []))).
  simpl. intros Hin.
  repeat (apply elem_of_cons in Hin as [Hin | Hin]; [discriminate |]).
  by apply elem_of_nil in Hin.
Defined.

Lemma webhook_failure_witness :
  ∃ p',
    Payments.webhook 100 (Sample.ledger Order.payment_pending)
      (Fixtures.click "pay1" "error" "tx-2")
    = (set_payments (<["pay1"%string := p']> (payments (Sample.ledger Order.payment_pending)))
         (Sample.ledger Order.payment_pending),
       mkResponse 200 Success)
    ∧ Payment.status p' = Payment.failed
    ∧ Payment.order_id p' = "order-1"%string
    ∧ Payment.provider p' = "click"%string
    ∧ Payment.amount p' = 2000
    ∧ Payment.capturedAt p' = None.
Proof.
  apply (webhook_failure 100 (Sample.ledger Order.payment_pending)
           (Fixtures.click "pay1" "error" "tx-2") "pay1" "tx-2" Sample.pay1);
    [reflexivity | discriminate | reflexivity].
Defined.

Lemma webhook_without_body_witness :
  Payments.webhook 100 (Sample.ledger Order.payment_pending)
    (Payments.mkWebhookRequest "payme" [] Js.JUndefined)
  = (Sample.ledger Order.payment_pending,
     mkResponse 500 (WebhookError "Webhook processing failed")).
Proof.
  apply (webhook_without_body 100 (Sample.ledger Order.payment_pending)
           (Payments.mkWebhookRequest "payme" [] Js.JUndefined)).
  - simpl. right. left.
  - by left.
Defined.

Lemma createPayment_refused_witness :
  (PaymentRoutes.createPayment pretty (Fixtures.books Order.payment_pending)
     (Fixtures.pay_order_1 "bob")).1
  = Fixtures.books Order.payment_pending.
Proof.
  apply (createPayment_refused pretty (Fixtures.books Order.payment_pending)
           (Fixtures.pay_order_1 "bob") _ 404 "Order not found").
  reflexivity.
Defined.

Lemma createPayment_fails_on_insert_witness :
  PaymentRoutes.createPayment pretty (Fixtures.books Order.payment_pending)
    (Fixtures.pay_order_1 "alice")
  = (Fixtures.books Order.payment_pending, Refusal 500 "Failed to create payment").
Proof.
  apply (createPayment_fails_on_insert pretty (Fixtures.books Order.payment_pending)
           (Fixtures.pay_order_1 "alice") (Sample.order_in Order.payment_pending));
    [reflexivity | reflexivity | reflexivity | discriminate].
Defined.

(** Bob asks for the status of the payment of Alice's order. *)
Lemma getPaymentStatus_owner_only_witness :
  PaymentRoutes.getPaymentStatus (Fixtures.books Order.payment_pending) "bob" "pay1"
  = Refusal 404 "Payment not found".
Proof.
  apply (getPaymentStatus_owner_only (Fixtures.books Order.payment_pending) "bob" "pay1"
           Sample.pay1 (Sample.order_in Order.payment_pending));
    reflexivity.
Defined.

Lemma refundPayment_refused_witness :
  (PaymentRoutes.refundPayment (Fixtures.books Order.payment_pending)
     Fixtures.refund_pay1).1
  = Fixtures.books Order.payment_pending.
Proof.
  apply (refundPayment_refused (Fixtures.books Order.payment_pending)
           Fixtures.refund_pay1 _ 400 "Payment cannot be refunded").
  reflexivity.
Defined.

Lemma refundPayment_captured_witness :
  ∃ t' d,
    PaymentRoutes.refundPayment Fixtures.settled Fixtures.refund_pay1 = (t', Data d)
    ∧ PaymentRoutes.refunded_amount d = Js.or_number None 2000
    ∧ PaymentRoutes.refund_status d = "pending"%string
    ∧ payments (db t')
      = <["pay1"%string :=
            Payment.set_status Payment.refunded
              (Payment.mk "order-1" "click" (Some "tx-1"%string) 2000
                 Payment.captured (Some 100))]>
          (payments (db Fixtures.settled))
    ∧ orders (db t') = orders (db Fixtures.settled).
Proof.
  apply (refundPayment_captured Fixtures.settled Fixtures.refund_pay1
           (Payment.mk "order-1" "click" (Some "tx-1"%string) 2000
              Payment.captured (Some 100))
           (Order.set_paymentStatus Order.paid (Sample.order_in Order.payment_pending)));
    reflexivity.
Defined.

Lemma refundPayment_once_witness :
  let t1 := (PaymentRoutes.refundPayment Fixtures.settled Fixtures.refund_pay1).1 in
  PaymentRoutes.refundPayment t1 Fixtures.refund_pay1
  = (t1, Refusal 400 "Payment cannot be refunded").
Proof.
  apply (refundPayment_once Fixtures.settled Fixtures.refund_pay1
           (PaymentRoutes.refundPayment Fixtures.settled Fixtures.refund_pay1).1
           (PaymentRoutes.mkRefunded "refund_1700000100000_p0o9i8u7y" "pending" 2000)
           Fixtures.refund_pay1);
    reflexivity.
Defined.

Lemma failure_after_refund_witness :
  let t1 := (PaymentRoutes.refundPayment Fixtures.settled Fixtures.refund_pay1).1 in
  Payment.status <$> payments (db t1) !! "pay1" = Some Payment.refunded
  ∧ Payment.status <$>
      payments (Payments.webhook 300 (db t1) Sample.click_failure).1 !! "pay1"
    = Some Payment.failed
  ∧ (Payments.webhook 300 (db t1) Sample.click_failure).2 = mkResponse 200 Success.
Proof.
  apply (failure_after_refund Fixtures.settled Fixtures.refund_pay1
           (PaymentRoutes.refundPayment Fixtures.settled Fixtures.refund_pay1).1
           (PaymentRoutes.mkRefunded "refund_1700000100000_p0o9i8u7y" "pending" 2000)
           300 Sample.click_failure "tx-2");
    reflexivity.
Defined.

Lemma refundPayment_metadata_witness :
  Js.assoc "refund"
    (default []
       (metadata (PaymentRoutes.refundPayment Fixtures.settled Fixtures.refund_pay1).1
          !! "pay1"))
  = Js.JObject
      [("id"%string, Js.JString "refund_1700000100000_p0o9i8u7y");
       ("amount"%string, Js.JNumber 2000);
       ("reason"%string, Js.JString "damaged");
       ("requestedAt"%string, Js.JString "2023-11-14T22:15:00.000Z");
       ("requestedBy"%string, Js.JString "alice")].
Proof.
  apply (refundPayment_metadata Fixtures.settled Fixtures.refund_pay1
           (PaymentRoutes.refundPayment Fixtures.settled Fixtures.refund_pay1).1
           (PaymentRoutes.mkRefunded "refund_1700000100000_p0o9i8u7y" "pending" 2000)
           "refund").
  reflexivity.
Defined.

Lemma rateOrder_after_delivery_witness :
  OrderRoutes.rateOrder (λ s, s) (Sample.ledger Order.delivered) Fixtures.five_stars
  = Data {| OrderRoutes.customerRating := 5;
            OrderRoutes.customerFeedback := Some "on time"%string |}.
Proof.
  apply (rateOrder_after_delivery (λ s, s) (Sample.ledger Order.delivered)
           Fixtures.five_stars (Sample.order_in Order.delivered));
    [reflexivity | reflexivity | done].
Defined.
